(** * DocGuard-AI: layout service and preprocessing service

    A shallow embedding of the two FastAPI services of the repository,

      - [services/paddleocr/app/main.py]      (layout analysis, PPStructure v3)
      - [services/preprocessing/app/public/api.py] (document preprocessing)

    together with the pydantic models they validate against, and the
    properties of the specification that can be stated over them.

    The private pipeline module ([app/private/pipeline.py]) that the
    preprocessing endpoint calls takes part only through what the endpoint
    observes of it (it returns a list of pairs or raises); the parts of it
    that the specification describes in words are modelled in
    [Module Coordinator]. *)

From Stdlib Require Import ZArith QArith Ascii String List Lia.
From stdpp Require Import base option list gmap strings.

Set Warnings "-register-all,-clear-no-such-hyp".
Local Open Scope string_scope.
Local Open Scope Z_scope.
Local Open Scope list_scope.

(** ** Python values and exceptions *)

Module Py.

(** A Python [float]: a finite value (every finite double is a rational),
    a NaN or an infinity.  Only [int(...)] is ever applied to one. *)
Inductive pyfloat : Type :=
| FFinite (q : Q)
| FNan
| FInf (negative : bool).

(** The JSON-like objects found in the [.json] attribute of a PPStructure
    prediction.  Text is a sequence of characters; a [dict] is kept in
    insertion order. *)
Inductive value : Type :=
| VNone
| VBool (b : bool)
| VInt (z : Z)
| VFloat (f : pyfloat)
| VStr (s : string)
| VList (l : list value)
| VDict (d : list (string * value)).

(** The exception classes that the modelled statements can raise.
    [ValidationError] is pydantic's; it derives from [ValueError]. *)
Inductive exc : Type :=
| KeyError
| ValueError
| TypeError
| OverflowError
| ValidationError.

Inductive res (A : Type) : Type :=
| Ok (a : A)
| Raise (e : exc).
Arguments Ok {A} a.
Arguments Raise {A} e.

#[global] Instance res_bind : MBind res := λ A B k m,
  match m with
  | Ok a => k a
  | Raise e => Raise e
  end.

#[global] Instance res_ret : MRet res := λ A a, Ok a.

Fixpoint dict_lookup (key : string) (d : list (string * value)) : option value :=
  match d with
  | [] => None
  | (k, v) :: rest => if String.eqb k key then Some v else dict_lookup key rest
  end.

(** [obj[key]] for a text key: a [dict] answers or raises [KeyError];
    every other object raises [TypeError] (not subscriptable, or indices
    must be integers). *)
Definition subscript (obj : value) (key : string) : res value :=
  match obj with
  | VDict d =>
      match dict_lookup key d with
      | Some v => Ok v
      | None => Raise KeyError
      end
  | _ => Raise TypeError
  end.

(** [d.get(key, default)] on a [dict]. *)
Definition dict_get (d : list (string * value)) (key : string) (default : value) : value :=
  match dict_lookup key d with
  | Some v => v
  | None => default
  end.

Fixpoint chars (s : string) : list value :=
  match s with
  | EmptyString => []
  | String c rest => VStr (String c EmptyString) :: chars rest
  end.

(** [iter(v)]: lists yield their items, text its characters, a [dict]
    its keys; nothing else is iterable. *)
Definition iterate (v : value) : res (list value) :=
  match v with
  | VList l => Ok l
  | VStr s => Ok (chars s)
  | VDict d => Ok (map (fun kv => VStr (fst kv)) d)
  | _ => Raise TypeError
  end.

(** [int(float)] truncates toward zero. *)
Definition trunc (q : Q) : Z := Z.quot (Qnum q) (Zpos (Qden q)).

Section Int.
(** Python's parser of integer literals in text ([int("12") = 12]),
    a builtin. *)
Variable int_of_text : string -> option Z.

Definition py_int (v : value) : res Z :=
  match v with
  | VInt z => Ok z
  | VBool b => Ok (if b then 1 else 0)
  | VFloat (FFinite q) => Ok (trunc q)
  | VFloat FNan => Raise ValueError
  | VFloat (FInf _) => Raise OverflowError
  | VStr s =>
      match int_of_text s with
      | Some z => Ok z
      | None => Raise ValueError
      end
  | VNone | VList _ | VDict _ => Raise TypeError
  end.

(** The first [n] items of the lazy [map(int, items)], pulled one at a
    time: the first failing conversion raises, an early end raises
    [ValueError] (not enough values to unpack). *)
Fixpoint pull (n : nat) (items : list value) : res (list Z * list value) :=
  match n with
  | O => Ok ([], items)
  | S n' =>
      match items with
      | [] => Raise ValueError
      | v :: rest =>
          z ← py_int v;
          '(zs, extra) ← pull n' rest;
          mret (z :: zs, extra)
      end
  end.

(** [x1, y1, x2, y2 = map(int, items)]: after four items the iterator
    is asked once more; a fifth item is converted (and may raise) before
    [ValueError] (too many values to unpack) is raised. *)
Definition unpack4 (items : list value) : res (Z * Z * Z * Z) :=
'(zs, extra) ← pull 4 items;
  match zs, extra with
  | [a; b; c; d], [] => mret (a, b, c, d)
  | _, fifth :: _ => py_int fifth ≫= λ _, Raise ValueError
  | _, [] => Raise ValueError
  end.
End Int.

(** A text parser to run the definitions with: plain decimal digits with
    an optional sign. *)
Definition digit_of (c : Ascii.ascii) : option Z :=
  let n := Z.of_nat (Ascii.nat_of_ascii c) in
  if (48 <=? n) && (n <=? 57) then Some (n - 48) else None.

Fixpoint digits (acc : Z) (s : string) : option Z :=
  match s with
  | EmptyString => Some acc
  | String c rest =>
      match digit_of c with
      | Some d => digits (10 * acc + d) rest
      | None => None
      end
  end.

Definition decimal (s : string) : option Z :=
  match s with
  | EmptyString => None
  | String "-"%char (String c rest) => Z.opp <$> digits 0 (String c rest)
  | String "+"%char (String c rest) => digits 0 (String c rest)
  | _ => digits 0 s
  end.

End Py.

(** ** The layout service: [services/paddleocr/app] *)

Module PaddleOCR.
Import Py.

(** [models.py]: [BBox], four integer fields, each declared [ge=0]. *)
Record BBox : Type := mkBBox { x1 : Z; y1 : Z; x2 : Z; y2 : Z }.

(** [models.py]: [Detection]; [confidence] defaults to [None]. *)
Record Detection : Type :=
  mkDetection { bbox : BBox; cls : string; confidence : option Q }.

(** [BBox(x1=.., y1=.., x2=.., y2=..)]: pydantic rejects a negative field. *)
Definition new_BBox (a b c d : Z) : res BBox :=
  if (0 <=? a) && (0 <=? b) && (0 <=? c) && (0 <=? d)
  then Ok (mkBBox a b c d)
  else Raise ValidationError.

(** [Detection(bbox=.., cls=..)]: [cls] is declared [str]; pydantic takes
    text and rejects every other JSON value. *)
Definition new_Detection (box : BBox) (label : value) : res Detection :=
  match label with
  | VStr s => Ok (mkDetection box s None)
  | _ => Raise ValidationError
  end.

(** [except (KeyError, ValueError, TypeError)] in the loop of
    [analyze_document]. *)
Definition caught (e : exc) : bool :=
  match e with
  | KeyError | ValueError | TypeError | ValidationError => true
  | OverflowError => false
  end.

Inductive level : Type := INFO | WARNING | ERROR.

Section Analyze.
Variable int_of_text : string -> option Z.

(** The body of the [try] in the loop, for one entry of
    [parsing_res_list] ([main.py], lines 156-165). *)
Definition detection_of (obj : value) : res Detection :=
  match obj with
  | VDict fields =>
      raw ← subscript obj "block_bbox";
      items ← iterate raw;
      '(a, b, c, d) ← unpack4 int_of_text items;
      box ← new_BBox a b c d;
      new_Detection box (dict_get fields "block_label" (VStr "unknown"))
  | _ => subscript obj "block_bbox" ≫= λ _, Raise TypeError
  end.

(** What the loop below does with one entry: it appends a detection, or
    it skips the entry with a warning (or the exception escapes). *)
Definition kept (obj : value) : option Detection :=
  match detection_of obj with
  | Ok d => Some d
  | Raise _ => None
  end.

Definition skipped (obj : value) : bool :=
  match detection_of obj with
  | Ok _ => false
  | Raise e => caught e
  end.

(** The loop over [layout_res] ([main.py], lines 155-168), with the list
    [detections] and the records logged so far as its state.  An exception
    that the [except] clause names makes the loop log a warning and go on;
    any other one leaves the loop. *)
Fixpoint analyze_loop (layout_res : list value) (detections : list Detection)
    (log : list level) : res (list Detection) * list level :=
  match layout_res with
  | [] => (Ok detections, log)
  | obj :: rest =>
      match detection_of obj with
      | Ok d => analyze_loop rest (detections ++ [d]) log
      | Raise e =>
          if caught e
          then analyze_loop rest detections (log ++ [WARNING])
          else (Raise e, log)
      end
  end.

(** What the endpoint answers once [layout_res] is known: the detections
    (the elapsed time is left out), or, through the outer
    [except Exception], a 500. *)
Inductive reply : Type :=
| AnalyzeResponse (detections : list Detection)
| HTTPException (status_code : Z).

Definition analyze_layout (layout_res : list value) : reply * list level :=
  match analyze_loop layout_res [] [] with
  | (Ok detections, log) => (AnalyzeResponse detections, log ++ [INFO])
  | (Raise _, log) => (HTTPException 500, log ++ [ERROR])
  end.

(** Whether a box lies on a page of the given size. *)
Definition within_page (width height : Z) (b : BBox) : Prop :=
  0 <= x1 b <= width /\ 0 <= x2 b <= width /\
  0 <= y1 b <= height /\ 0 <= y2 b <= height.

(** Whether an entry has the fields the adapter is said to require. *)
Definition has_field (key : string) (obj : value) : bool :=
  match obj with
  | VDict fields => bool_decide (is_Some (dict_lookup key fields))
  | _ => false
  end.
End Analyze.
End PaddleOCR.

(** ** The preprocessing service: [services/preprocessing/app] *)

Module Preprocessing.
Import Py.

Definition bytes : Type := list Byte.byte.

(** [public/models.py]. *)
Record BBox : Type := mkBBox { x1 : Z; y1 : Z; x2 : Z; y2 : Z }.

Record BBoxInfo : Type := mkBBoxInfo { info_bbox : BBox; info_type : string }.

Record SegmentContent : Type :=
  mkSegmentContent { text : string; metadata : list (string * value) }.

Record DocumentSegment : Type :=
  mkDocumentSegment {
    bbox : BBox;
    segment_type : string;
    content : SegmentContent;
    confidence : option Q;
    bbox_info : list BBoxInfo }.

Record ProcessResponse : Type :=
  mkProcessResponse {
    segments : list DocumentSegment;
    total_segments : Z;
    elapsed_ms : Q;
    status : string }.

Record HealthResponse : Type :=
  mkHealthResponse { health_status : string; service : string }.

(** What FastAPI hands to the endpoint: the uploaded file and the two query
    parameters, absent ones taking the defaults of the signature. *)
Record UploadFile : Type :=
  mkUploadFile { filename : option string; content_type : option string; data : bytes }.

Record request : Type :=
  mkRequest { image : UploadFile; max_segments : option Z; min_height : option Z }.

(** An exception, with the text that [str(e)] gives. *)
Record error : Type := mkError { exc_class : string; exc_text : string }.

(** What the endpoint observes of one call of
    [run_preprocessing_pipeline_with_splits]: a list of pairs
    [(segment_image, segment_list)], or an exception (an instance of
    [Exception], which is what the [except] clause of the endpoint
    catches). *)
Inductive outcome : Type :=
| Returned (results : list (bytes * list DocumentSegment))
| Raised (e : error).

(** The private pipeline with its two backends behind it, as the function
    of its arguments that a run with fixed backend responses is. *)
Definition pipeline : Type := bytes -> string -> string -> Z -> Z -> outcome.

(** Two readings of [time.perf_counter()], a monotonic clock. *)
Record clock : Type :=
  mkClock { t_start : Q; t_end : Q; monotonic : (t_start <= t_end)%Q }.

Inductive level : Type := INFO | WARNING | ERROR.

(** What a call does besides answering: it logs, and it calls the
    pipeline, the only way from the endpoint to the two backends. *)
Inductive event : Type :=
| Log (l : level)
| PipelineCall (image_data : bytes) (ppstructure_url paddlevl_url : string)
    (max_segments min_height : Z).

Inductive http (A : Type) : Type :=
| Response (body : A)
| HTTPException (status_code : Z) (detail : string).
Arguments Response {A} body.
Arguments HTTPException {A} status_code detail.

(** [os.getenv(name, default)]. *)
Definition getenv (environ : string -> option string) (name default : string) : string :=
  match environ name with
  | Some v => v
  | None => default
  end.

Definition PPSTRUCTURE_URL (environ : string -> option string) : string :=
  getenv environ "PPSTRUCTURE_URL" "http://paddleocr:8080".

Definition PADDLEVL_URL (environ : string -> option string) : string :=
  getenv environ "PADDLEVL_URL" "http://paddleocr-vl:8080".

(** [GET /health] ([api.py], lines 27-34).  The argument stands for
    everything the handler could have looked at. *)
Definition health_check {State : Type} (_ : State) : HealthResponse :=
  mkHealthResponse "healthy" "Preprocessing".

(** [not image.content_type or not image.content_type.startswith("image/")]. *)
Definition not_an_image (f : UploadFile) : bool :=
  match content_type f with
  | None => true
  | Some ct => negb (String.prefix "image/" ct)
  end.

(** The loop [for segment_image, segment_list in results:
    segments.extend(segment_list)]. *)
Fixpoint extend_all (results : list (bytes * list DocumentSegment))
    (segments : list DocumentSegment) : list DocumentSegment :=
  match results with
  | [] => segments
  | (_, segment_list) :: rest => extend_all rest (segments ++ segment_list)
  end.

Definition elapsed (clk : clock) : Q := ((t_end clk - t_start clk) * 1000)%Q.

Definition or_default (q : option Z) (default : Z) : Z :=
  match q with
  | Some z => z
  | None => default
  end.

(** [POST /process] ([api.py], lines 37-101): the answer and the events
    of the call, in order. *)
Definition process_document (environ : string -> option string)
    (run_preprocessing_pipeline_with_splits : pipeline) (clk : clock)
    (req : request) : http ProcessResponse * list event :=
  let max_segments := or_default (max_segments req) 8 in
  let min_height := or_default (min_height req) 50 in
  if not_an_image (image req) then
    (HTTPException 400 "File must be an image (JPEG, PNG, etc.)", [Log WARNING])
  else
    let image_data := data (image req) in
    let call :=
      PipelineCall image_data (PPSTRUCTURE_URL environ) (PADDLEVL_URL environ)
        max_segments min_height in
    match run_preprocessing_pipeline_with_splits image_data
            (PPSTRUCTURE_URL environ) (PADDLEVL_URL environ)
            max_segments min_height with
    | Returned results =>
        let segments := extend_all results [] in
        (Response
           (mkProcessResponse segments (Z.of_nat (length segments))
              (elapsed clk) "success"),
         [Log INFO; call; Log INFO])
    | Raised e =>
        (HTTPException 500 ("Failed to process document: " ++ exc_text e)%string,
         [Log INFO; call; Log ERROR])
    end.

(** No pipeline call among the events: no backend was reached. *)
Definition is_call (ev : event) : bool :=
  match ev with
  | PipelineCall _ _ _ _ _ => true
  | Log _ => false
  end.

Definition no_backend_call (trace : list event) : Prop :=
  forallb (fun ev => negb (is_call ev)) trace = true.

(** Two answers that differ at most in [elapsed_ms]. *)
Definition same_but_elapsed (a b : http ProcessResponse) : Prop :=
  match a, b with
  | Response r, Response r' =>
      segments r = segments r' /\ total_segments r = total_segments r' /\
      status r = status r'
  | HTTPException c d, HTTPException c' d' => c = c' /\ d = d'
  | _, _ => False
  end.

End Preprocessing.

(** ** The pipeline coordinator

    [app/private/pipeline.py] is not among the sources at hand.  This
    module follows the words of the specification (sections 3 to 5) for
    the parts of it that the properties below speak of. *)

Module Coordinator.
Import Py.

Definition BBox : Type := Preprocessing.BBox.
Definition bytes : Type := Preprocessing.bytes.

(** Modelled from the spec: the data model of section 3 ([Region], [Band],
    [ExtractedContent], [SegmentRecord], [PipelineResult]), whose
    declarations are in the absent module. *)
Record Region : Type := mkRegion { region_bbox : BBox; label : string }.

Record Band : Type :=
  mkBand { index : nat; band_bbox : BBox; member_regions : list Region }.

Record ExtractedContent : Type :=
  mkExtractedContent {
    text : string;
    metadata : list (string * value);
    error : option string }.

Record SegmentRecord : Type :=
  mkSegmentRecord {
    bbox : BBox;
    segment_type : string;
    content : ExtractedContent;
    confidence : option Q;
    bbox_info : list Preprocessing.BBoxInfo }.

Record PipelineResult : Type :=
  mkPipelineResult {
    segments : list SegmentRecord;
    total_segments : nat;
    status : option string }.

(** *** Geometry partitioner (section 4.1) *)

Definition top_of (r : Region) : Z := Preprocessing.y1 (region_bbox r).
Definition bottom_of (r : Region) : Z := Preprocessing.y2 (region_bbox r).
Definition left_of (r : Region) : Z := Preprocessing.x1 (region_bbox r).

(** Modelled from the spec: the order of the regions, "sorted by their top
    coordinate, ties broken by x1 ascending". *)
Definition before (a b : Region) : bool :=
  (top_of a <? top_of b) || ((top_of a =? top_of b) && (left_of a <=? left_of b)).

Fixpoint place (r : Region) (sorted : list Region) : list Region :=
  match sorted with
  | [] => [r]
  | s :: rest => if before r s then r :: s :: rest else s :: place r rest
  end.

Definition sort_regions (regions : list Region) : list Region :=
  foldr place [] regions.

(** A band while it grows: its top and bottom edges and the regions
    pulled into it so far. *)
Record growing : Type :=
  mkGrowing { top : Z; bottom : Z; pulled : list Region }.

(** Modelled from the spec: the growth of the bands.  "A band is closed
    once its height reaches min_height and there remain enough unclosed
    regions to justify starting a new band without exceeding
    max_segments"; otherwise the next region is pulled into it, and its
    bottom edge extended "to the maximum y2 among regions pulled into it".
    A new band starts "at the top y1 of the next unassigned region". *)
Fixpoint grow (max_segments min_height : Z) (closed : list growing)
    (current : growing) (unassigned : list Region) : list growing :=
  match unassigned with
  | [] => closed ++ [current]
  | r :: rest =>
      if (min_height <=? bottom current - top current)
         && (Z.of_nat (length closed) + 2 <=? max_segments)
      then grow max_segments min_height (closed ++ [current])
             (mkGrowing (top_of r) (bottom_of r) [r]) rest
      else grow max_segments min_height closed
             (mkGrowing (top current) (Z.max (bottom current) (bottom_of r))
                (pulled current ++ [r])) rest
  end.

(** Modelled from the spec: "if the union of bands does not reach
    page_height, the final band's bottom edge is extended to page_height". *)
Fixpoint extend_last (page_height : Z) (bands : list growing) : list growing :=
  match bands with
  | [] => []
  | [g] => [mkGrowing (top g) (Z.max (bottom g) page_height) (pulled g)]
  | g :: rest => g :: extend_last page_height rest
  end.

(** Modelled from the spec: member regions have their "coordinates
    translated to band-local space". *)
Definition to_band_space (band_top : Z) (r : Region) : Region :=
  let b := region_bbox r in
  mkRegion
    (Preprocessing.mkBBox (Preprocessing.x1 b) (Preprocessing.y1 b - band_top)
       (Preprocessing.x2 b) (Preprocessing.y2 b - band_top))
    (label r).

Definition band_of (page_width : Z) (i : nat) (g : growing) : Band :=
  mkBand i (Preprocessing.mkBBox 0 (top g) page_width (bottom g))
    (map (to_band_space (top g)) (pulled g)).

(** Modelled from the spec: [partition] of section 4.1, which lives in the
    absent module.  The first band starts at the page top; an empty region
    list gives the one band that is the page. *)
Definition partition (page_height page_width : Z) (regions : list Region)
    (max_segments min_height : Z) : list Band :=
  match sort_regions regions with
  | [] => [mkBand 0 (Preprocessing.mkBBox 0 0 page_width page_height) []]
  | r :: rest =>
      imap (band_of page_width)
        (extend_last page_height
           (grow max_segments min_height [] (mkGrowing 0 (bottom_of r) [r]) rest))
  end.

(** Bands numbered by their position, top to bottom. *)
Definition indexed (bands : list Band) : Prop :=
  forall (i : nat) (b : Band), bands !! i = Some b -> index b = i.

(** A band that is the whole page. *)
Definition spans_page (page_height page_width : Z) (b : Band) : Prop :=
  band_bbox b = Preprocessing.mkBBox 0 0 page_width page_height.

(** *** Aggregate status (section 4.4) *)

(** Modelled from the spec: the reduction of the per-band failures to the
    status of the run, "success if no Band reported an error, partial if
    some but not all did".  The specification names no status for a run
    in which every band failed. *)
Definition aggregate_status (failed : list bool) : option string :=
  if forallb negb failed then Some "success"
  else if forallb id failed then None
  else Some "partial".

Definition reported_error (s : SegmentRecord) : bool :=
  bool_decide (is_Some (error (content s))).

(** Modelled from the spec: the error marker that the content of a failed
    band's segment carries.  [SegmentContent] of [public/models.py] has no
    field for it; its open-ended metadata is where a marker can go. *)
Definition carries_error_marker (s : Preprocessing.DocumentSegment) : bool :=
  bool_decide (is_Some (dict_lookup "error"
    (Preprocessing.metadata (Preprocessing.content s)))).

(** *** Scatter and gather (sections 4.4 and 5) *)

(** The layout backend's answer to the one call of a run. *)
Inductive layout_reply : Type :=
| LayoutOk (page_width page_height : Z) (regions : list Region)
| LayoutFailed (reason : string).

Inductive failure : Type :=
| UpstreamUnavailable (reason : string).

Section Run.
(** The two backends, answering as fixed functions, the cropping of the
    page image, and the order in which the extraction calls of a run
    complete (band positions, earliest first). *)
Variable detect : bytes -> layout_reply.
Variable extract : bytes -> ExtractedContent.
Variable crop : bytes -> BBox -> bytes.
Variable schedule : list nat.

(** What the extraction backend answers for a band. *)
Definition content_of (image_bytes : bytes) (b : Band) : ExtractedContent :=
  extract (crop image_bytes (band_bbox b)).

(** Modelled from the spec: the extraction calls of the absent dispatcher
    as they complete, each with the index of its band as its key. *)
Definition completions (image_bytes : bytes) (bands : list Band)
    : list (nat * ExtractedContent) :=
  omap (fun i => b ← bands !! i;
                 Some (index b, content_of image_bytes b))
    schedule.

(** Modelled from the spec: the gathering of the absent dispatcher, "a
    results map keyed by band index". *)
Definition gather (done : list (nat * ExtractedContent)) : gmap nat ExtractedContent :=
  foldl (fun results kc => <[fst kc := snd kc]> results) ∅ done.

Definition segment_of (b : Band) (c : ExtractedContent) : SegmentRecord :=
  mkSegmentRecord (band_bbox b) "horizontal_segment" c None
    (map (fun r => Preprocessing.mkBBoxInfo (region_bbox r) (label r))
       (member_regions b)).

(** Modelled from the spec: the merge of the absent coordinator, "merge
    each Band + its ExtractedContent into a SegmentRecord, preserving band
    order as segment order": the bands are walked in order and each looks
    its content up by its index.  [None] while some band has no content
    yet. *)
Fixpoint merge (bands : list Band) (results : gmap nat ExtractedContent)
    : option (list SegmentRecord) :=
  match bands with
  | [] => Some []
  | b :: rest =>
      c ← results !! index b;
      segs ← merge rest results;
      Some (segment_of b c :: segs)
  end.

(** Modelled from the spec: [run] of section 4.4, which lives in the absent
    module.  A failed layout call fails the run; otherwise the page is
    partitioned, the extraction calls are gathered by band index and the
    segments merged in band order. *)
Definition run (image_bytes : bytes) (max_segments min_height : Z)
    : option (failure + PipelineResult) :=
  match detect image_bytes with
  | LayoutFailed reason => Some (inl (UpstreamUnavailable reason))
  | LayoutOk page_width page_height regions =>
      let bands := partition page_height page_width regions max_segments min_height in
      segs ← merge bands (gather (completions image_bytes bands));
      Some (inr (mkPipelineResult segs (length segs)
                   (aggregate_status (map reported_error segs))))
  end.

(** The segments of a run, if it produced any. *)
Definition segments_of (r : option (failure + PipelineResult)) : list SegmentRecord :=
  match r with
  | Some (inr result) => segments result
  | _ => []
  end.
End Run.

End Coordinator.

(** ** The layout service as a whole: [services/paddleocr/app/main.py] *)

Module LayoutService.
Import Py.

(** [models.py], lines 57-66. *)
Record HealthResponse : Type :=
  mkHealthResponse { status : string; service : string }.

(** What a handler does besides answering: it logs, it opens the uploaded
    image, it runs the prediction. *)
Inductive event : Type :=
| Log (l : PaddleOCR.level)
| ImageOpen
| Predict.

(** The answer of [GET /health]; the 503 has a fixed detail. *)
Inductive health_reply : Type :=
| Healthy (body : HealthResponse)
| Unready (status_code : Z) (detail : string).

Section Service.
(** The decoded page (the RGB array handed to the model). *)
Variable Img : Type.
Variable int_of_text : string -> option Z.

(** The model object: what [ppstruct.predict(img_array)[0].json] gives for
    an array, a JSON value, or [None] when the expression raises. *)
Definition PPStructureV3 : Type := Img -> option value.

(** [app.state], as far as the attribute [ppstruct] goes: absent (before
    the start), or set, to a model or to [None]. *)
Inductive app_state : Type :=
| NoAttribute
| Attribute (ppstruct : option PPStructureV3).

(** [lifespan] up to its [yield] (lines 37-54): the constructor of the
    model returns it or raises; on a raise the error is logged and raised
    again, and there is no state to serve from. *)
Definition lifespan_startup (construct : option PPStructureV3)
    : option app_state * list PaddleOCR.level :=
  match construct with
  | Some ppstruct =>
      (Some (Attribute (Some ppstruct)), [PaddleOCR.INFO; PaddleOCR.INFO])
  | None => (None, [PaddleOCR.INFO; PaddleOCR.ERROR])
  end.

(** [lifespan] after its [yield] (lines 58-61). *)
Definition lifespan_shutdown (st : app_state) : app_state * list PaddleOCR.level :=
  (match st with
   | Attribute _ => Attribute None
   | NoAttribute => NoAttribute
   end, [PaddleOCR.INFO]).

(** [hasattr(app.state, "ppstruct") and app.state.ppstruct is not None],
    with the model when it holds. *)
Definition initialized (st : app_state) : option PPStructureV3 :=
  match st with
  | Attribute (Some ppstruct) => Some ppstruct
  | Attribute None | NoAttribute => None
  end.

(** [GET /health] (lines 83-99). *)
Definition health_check (st : app_state) : health_reply * list PaddleOCR.level :=
  match initialized st with
  | Some _ => (Healthy (mkHealthResponse "healthy" "PPStructure v3"), [])
  | None =>
      (Unready 503 "Service not ready - PPStructure not initialized",
       [PaddleOCR.ERROR])
  end.

(** [result.get("res", {}).get("parsing_res_list", [])] (line 152);
    [None] when one of the two receivers has no [get], which raises
    [AttributeError]. *)
Definition layout_res_of (result : value) : option value :=
  match result with
  | VDict fields =>
      match dict_get fields "res" (VDict []) with
      | VDict res => Some (dict_get res "parsing_res_list" (VList []))
      | _ => None
      end
  | _ => None
  end.

(** The items that [for obj in layout_res] walks; [None] when
    [layout_res] cannot be iterated, which raises [TypeError] outside the
    inner [try]. *)
Definition entries_of (result : value) : option (list value) :=
  layout_res ← layout_res_of result;
  match iterate layout_res with
  | Ok items => Some items
  | Raise _ => None
  end.

(** [POST /analyze] (lines 102-184): the answer (status codes only, the
    elapsed time left out) and the events of the call, in order.
    [open_image] is [Image.open(...).convert("RGB")] followed by
    [np.array], [None] when it raises. *)
Definition analyze_document (st : app_state) (open_image : Preprocessing.bytes -> option Img)
    (image : Preprocessing.UploadFile) : PaddleOCR.reply * list event :=
  if Preprocessing.not_an_image image then
    (PaddleOCR.HTTPException 400, [Log PaddleOCR.WARNING])
  else
    match initialized st with
    | None => (PaddleOCR.HTTPException 503, [Log PaddleOCR.ERROR])
    | Some ppstruct =>
        match open_image (Preprocessing.data image) with
        | None =>
            (PaddleOCR.HTTPException 500,
             [Log PaddleOCR.INFO; ImageOpen; Log PaddleOCR.ERROR])
        | Some img_array =>
            let before :=
              [Log PaddleOCR.INFO; ImageOpen; Log PaddleOCR.INFO; Predict] in
            match ppstruct img_array with
            | None => (PaddleOCR.HTTPException 500, before ++ [Log PaddleOCR.ERROR])
            | Some result =>
                match entries_of result with
                | None => (PaddleOCR.HTTPException 500, before ++ [Log PaddleOCR.ERROR])
                | Some layout_res =>
                    let '(answer, log) :=
                      PaddleOCR.analyze_layout int_of_text layout_res in
                    (answer, before ++ map Log log)
                end
            end
        end
    end.

Definition is_inference (ev : event) : bool :=
  match ev with
  | Predict => true
  | _ => false
  end.
End Service.

Arguments NoAttribute {Img}.
Arguments Attribute {Img} ppstruct.

(** The declared bounds of [Detection] and [BBox] ([models.py], lines
    11-40): coordinates at least 0, a confidence, when there is one,
    between 0 and 1. *)
Definition Detection_in_bounds (d : PaddleOCR.Detection) : Prop :=
  0 <= PaddleOCR.x1 (PaddleOCR.bbox d) /\ 0 <= PaddleOCR.y1 (PaddleOCR.bbox d) /\
  0 <= PaddleOCR.x2 (PaddleOCR.bbox d) /\ 0 <= PaddleOCR.y2 (PaddleOCR.bbox d) /\
  match PaddleOCR.confidence d with
  | Some c => (0 <= c)%Q /\ (c <= 1)%Q
  | None => True
  end.

(** An infinite float among the first [n] items of a box. *)
Definition infinite_among (n : nat) (items : list value) : Prop :=
  exists negative, VFloat (FInf negative) ∈ take n items.

(** A box of four finite floats, with a label. *)
Definition float_entry (q1 q2 q3 q4 : Q) (label : string) : value :=
  VDict [("block_bbox",
          VList [VFloat (FFinite q1); VFloat (FFinite q2);
                 VFloat (FFinite q3); VFloat (FFinite q4)]);
         ("block_label", VStr label)].

(** A box of integers, with a label. *)
Definition int_entry (coordinates : list Z) (label : string) : value :=
  VDict [("block_bbox", VList (map VInt coordinates)); ("block_label", VStr label)].

End LayoutService.

(** The declared bounds of [ProcessResponse] ([public/models.py], lines
    75-90): [total_segments] and [elapsed_ms] at least 0. *)
Definition ProcessResponse_in_bounds (r : Preprocessing.ProcessResponse) : Prop :=
  0 <= Preprocessing.total_segments r /\ (0 <= Preprocessing.elapsed_ms r)%Q.

(** The number of pipeline calls among the events of a request. *)
Definition pipeline_calls (trace : list Preprocessing.event) : nat :=
  length (filter (fun ev => Preprocessing.is_call ev = true) trace).

(** ** The pipeline as the endpoint calls it *)

Module Invocation.
Import Coordinator.

Section Invocation.
Variable detect : bytes -> layout_reply.
Variable extract : bytes -> ExtractedContent.
Variable crop : bytes -> BBox -> bytes.

(** The positions of the bands of a run, top to bottom: one extraction
    call is dispatched for each, and none when the layout call failed. *)
Definition band_positions (image_bytes : bytes) (max_segments min_height : Z)
    : list nat :=
  match detect image_bytes with
  | LayoutOk page_width page_height regions =>
      seq 0 (length (partition page_height page_width regions max_segments min_height))
  | LayoutFailed _ => []
  end.

(** Modelled from the spec: [run_preprocessing_pipeline_with_splits] of the
    absent module, as the endpoint calls it: one run of the coordinator on
    the image and the two bounds, the two addresses naming the backends
    that [detect] and [extract] stand for.  [present] is the form in which
    the run's result is handed to the endpoint (a list of pairs, or an
    exception), whatever it is; [schedule] is the order in which the
    extraction calls of this run complete. *)
Definition pipeline_of
    (present : option (failure + PipelineResult) -> Preprocessing.outcome)
    (schedule : list nat) : Preprocessing.pipeline :=
  fun image_data _ _ max_segments min_height =>
    present (run detect extract crop schedule image_data max_segments min_height).
End Invocation.
End Invocation.

(** * Sample inputs *)

(** Three entries of a layout output: a text block, an entry without a
    box, and a table without a label. *)
Definition entry_text : Py.value :=
  Py.VDict [("block_bbox", Py.VList [Py.VInt 10; Py.VInt 20; Py.VInt 300; Py.VInt 60]);
            ("block_label", Py.VStr "text")].

Definition entry_without_bbox : Py.value :=
  Py.VDict [("block_label", Py.VStr "figure")].

Definition entry_without_label : Py.value :=
  Py.VDict [("block_bbox", Py.VList [Py.VInt 10; Py.VInt 80; Py.VInt 300; Py.VInt 200])].

(** An entry whose box leaves a page of 100 by 100 pixels. *)
Definition entry_off_page : Py.value :=
  Py.VDict [("block_bbox", Py.VList [Py.VInt 0; Py.VInt 0; Py.VInt 5000; Py.VInt 5000]);
            ("block_label", Py.VStr "text")].

(** A request for the preprocessing endpoint, and three pipelines with
    stubbed backends: one returning three bands of which the second
    failed to extract, one raising, one returning nothing. *)
Definition png_upload : Preprocessing.UploadFile :=
  Preprocessing.mkUploadFile (Some "page.png") (Some "image/png")
    [Byte.x89; Byte.x50; Byte.x4e; Byte.x47].

Definition pdf_upload : Preprocessing.UploadFile :=
  Preprocessing.mkUploadFile (Some "page.pdf") (Some "application/pdf")
    [Byte.x25; Byte.x50; Byte.x44; Byte.x46].

Definition garbage_upload : Preprocessing.UploadFile :=
  Preprocessing.mkUploadFile (Some "noise.png") (Some "image/png") [Byte.x00].

Definition png_request : Preprocessing.request :=
  Preprocessing.mkRequest png_upload None None.

Definition pdf_request : Preprocessing.request :=
  Preprocessing.mkRequest pdf_upload None None.

Definition out_of_range_request : Preprocessing.request :=
  Preprocessing.mkRequest garbage_upload (Some 0) (Some (-5)).

Definition band_segment (top bottom : Z) (text : string)
    (metadata : list (string * Py.value)) : Preprocessing.DocumentSegment :=
  Preprocessing.mkDocumentSegment (Preprocessing.mkBBox 0 top 800 bottom)
    "horizontal_segment" (Preprocessing.mkSegmentContent text metadata) None [].

Definition three_bands : list (Preprocessing.bytes * list Preprocessing.DocumentSegment) :=
  [ ([Byte.x01], [band_segment 0 300 "Title" []]);
    ([Byte.x02], [band_segment 300 700 "" [("error", Py.VStr "extraction timed out")]]);
    ([Byte.x03], [band_segment 700 1000 "Footer" []]) ].

Definition stub_three_bands : Preprocessing.pipeline :=
  fun _ _ _ _ _ => Preprocessing.Returned three_bands.

Definition stub_raising : Preprocessing.pipeline :=
  fun _ _ _ _ _ =>
    Preprocessing.Raised (Preprocessing.mkError "ConnectError" "All connection attempts failed").

Definition no_environ : string -> option string := fun _ => None.

Definition clock_a : Preprocessing.clock :=
  Preprocessing.mkClock 1 2 ltac:(unfold Qle; simpl; lia).

Definition clock_b : Preprocessing.clock :=
  Preprocessing.mkClock 7 (15 # 2) ltac:(unfold Qle; simpl; lia).

(** A page of height 1000 with three regions, each a band of its own, a
    layout backend that answers with it and one that is down,
    an extraction backend that fails on the second crop, and an order of
    completion that is not the order of the bands. *)
Definition region (left top right bottom : Z) (label : string) : Coordinator.Region :=
  Coordinator.mkRegion (Preprocessing.mkBBox left top right bottom) label.

Definition scenario_regions : list Coordinator.Region :=
  [region 0 0 800 100 "title"; region 0 120 800 600 "text"; region 0 640 800 990 "footer"].

Definition stub_detect : Coordinator.bytes -> Coordinator.layout_reply :=
  fun _ => Coordinator.LayoutOk 800 1000 scenario_regions.

Definition stub_detect_down : Coordinator.bytes -> Coordinator.layout_reply :=
  fun _ => Coordinator.LayoutFailed "connection refused".

Definition stub_crop : Coordinator.bytes -> Coordinator.BBox -> Coordinator.bytes :=
  fun _ box =>
    if Preprocessing.y1 box =? 0 then [Byte.x01]
    else if Preprocessing.y1 box =? 120 then [Byte.x02]
    else [Byte.x03].

Definition stub_extract : Coordinator.bytes -> Coordinator.ExtractedContent :=
  fun band_image =>
    match band_image with
    | [Byte.x01] => Coordinator.mkExtractedContent "Title" [] None
    | [Byte.x02] => Coordinator.mkExtractedContent "" [] (Some "timeout")
    | _ => Coordinator.mkExtractedContent "Footer" [] None
    end.

Definition last_band_first : list nat := [2%nat; 0%nat; 1%nat].

(** A layout model that finds the three entries above, one whose
    prediction has no result, and an image opener that takes every
    payload. *)
Definition stub_ppstruct : LayoutService.PPStructureV3 Preprocessing.bytes :=
  fun _ =>
    Some (Py.VDict
            [("res", Py.VDict
                       [("parsing_res_list",
                         Py.VList [entry_text; entry_without_bbox; entry_without_label])])]).

Definition stub_ppstruct_empty : LayoutService.PPStructureV3 Preprocessing.bytes :=
  fun _ => Some (Py.VDict [("input_path", Py.VNone)]).

Definition stub_open : Preprocessing.bytes -> option Preprocessing.bytes :=
  fun payload => Some payload.

Definition started : LayoutService.app_state Preprocessing.bytes :=
  LayoutService.Attribute (Some stub_ppstruct).

(** An entry whose box has an infinite float as its third item. *)
Definition entry_infinite : Py.value :=
  Py.VDict [("block_bbox",
             Py.VList (map Py.VInt [10; 20] ++ Py.VFloat (Py.FInf false) :: [Py.VInt 60]));
            ("block_label", Py.VStr "text")].

(** A service whose model predicts without a result, and a pipeline that
    returns the segments of [three_bands] as one band. *)
Definition started_empty : LayoutService.app_state Preprocessing.bytes :=
  LayoutService.Attribute (Some stub_ppstruct_empty).

Definition stub_one_band : Preprocessing.pipeline :=
  fun _ _ _ _ _ =>
    Preprocessing.Returned [([Byte.xff], concat (map snd three_bands))].

Definition detection_text : PaddleOCR.Detection :=
  PaddleOCR.mkDetection (PaddleOCR.mkBBox 10 20 300 60) "text" None.

Definition detection_unknown : PaddleOCR.Detection :=
  PaddleOCR.mkDetection (PaddleOCR.mkBBox 10 80 300 200) "unknown" None.

(** A table whose label is an explicit null. *)
Definition entry_null_label : Py.value :=
  Py.VDict [("block_bbox", Py.VList (map Py.VInt [10; 80; 300; 200]));
            ("block_label", Py.VNone)].

(** The bands completing in their own order, and a way of handing a
    run's result to the endpoint: each segment as a band of its own, a
    failed run as an exception carrying the reason. *)
Definition first_band_first : list nat := [0%nat; 1%nat; 2%nat].

Definition present_as_pairs
    (r : option (Coordinator.failure + Coordinator.PipelineResult))
    : Preprocessing.outcome :=
  match r with
  | Some (inr result) =>
      Preprocessing.Returned
        (map (fun seg =>
                ([] : Preprocessing.bytes,
                 [Preprocessing.mkDocumentSegment (Coordinator.bbox seg)
                    (Coordinator.segment_type seg)
                    (Preprocessing.mkSegmentContent
                       (Coordinator.text (Coordinator.content seg))
                       (Coordinator.metadata (Coordinator.content seg)))
                    (Coordinator.confidence seg) (Coordinator.bbox_info seg)]))
           (Coordinator.segments result))
  | Some (inl (Coordinator.UpstreamUnavailable reason)) =>
      Preprocessing.Raised (Preprocessing.mkError "UpstreamUnavailable" reason)
  | None => Preprocessing.Raised (Preprocessing.mkError "RuntimeError" "run not finished")
  end.

(** * Properties *)

(** ** The layout adapter of [analyze_document] *)

Section LayoutAdapter.
Import Py PaddleOCR.
Variable int_of_text : string -> option Z.

Local Abbreviation py_int := (Py.py_int int_of_text).
Local Abbreviation unpack4 := (Py.unpack4 int_of_text).
Local Abbreviation detection_of := (PaddleOCR.detection_of int_of_text).
Local Abbreviation analyze_loop := (PaddleOCR.analyze_loop int_of_text).
Local Abbreviation kept := (PaddleOCR.kept int_of_text).
Local Abbreviation skipped := (PaddleOCR.skipped int_of_text).

Lemma bind_ok {A B : Type} (m : res A) (k : A -> res B) (b : B) :
  m ≫= k = Ok b -> exists a, m = Ok a /\ k a = Ok b.
Proof. destruct m as [a|e]; simpl; [eauto | discriminate]. Qed.

Lemma pull_ok (n : nat) (items : list value) (zs : list Z) (extra : list value) :
  pull int_of_text n items = Ok (zs, extra) ->
  exists vs, items = vs ++ extra /\ length vs = n /\
             Forall2 (fun v z => py_int v = Ok z) vs zs.
Proof.
  revert items zs extra. induction n as [|n IH]; intros items zs extra H.
  - simpl in H. injection H as <- <-. exists []. repeat split; constructor.
  - destruct items as [|v rest]; simpl in H; [discriminate|].
    apply bind_ok in H as (z & Hz & H).
    apply bind_ok in H as ([zs' extra'] & Hp & H).
    simpl in H. injection H as <- <-.
    destruct (IH _ _ _ Hp) as (vs & -> & Hlen & Hall).
    exists (v :: vs). repeat split; simpl; [congruence|].
    constructor; assumption.
Qed.

Lemma unpack4_ok (items : list value) (a b c d : Z) :
  unpack4 items = Ok (a, b, c, d) ->
  exists va vb vc vd, items = [va; vb; vc; vd] /\
    py_int va = Ok a /\ py_int vb = Ok b /\ py_int vc = Ok c /\ py_int vd = Ok d.
Proof.
  unfold Py.unpack4. intros H.
  apply bind_ok in H as ([zs extra] & Hp & H).
  apply pull_ok in Hp as (vs & -> & Hlen & Hall).
  destruct extra as [|fifth more].
  - destruct zs as [|z1 [|z2 [|z3 [|z4 [|z5 zs]]]]]; try discriminate.
    injection H as <- <- <- <-.
    inversion Hall as [|va ? r1 ? Ha H1]; subst.
    inversion H1 as [|vb ? r2 ? Hb H2]; subst.
    inversion H2 as [|vc ? r3 ? Hc H3]; subst.
    inversion H3 as [|vd ? r4 ? Hd H4]; subst.
    inversion H4; subst.
    exists va, vb, vc, vd. rewrite app_nil_r. auto.
  - exfalso.
    destruct zs as [|z1 [|z2 [|z3 [|z4 [|z5 zs]]]]];
      simpl in H; destruct (py_int fifth); discriminate.
Qed.

Lemma new_BBox_ok (a b c d : Z) (box : BBox) :
  new_BBox a b c d = Ok box ->
  box = mkBBox a b c d /\ 0 <= a /\ 0 <= b /\ 0 <= c /\ 0 <= d.
Proof.
  unfold new_BBox. intros H.
  destruct (0 <=? a) eqn:Ha, (0 <=? b) eqn:Hb, (0 <=? c) eqn:Hc, (0 <=? d) eqn:Hd;
    simpl in H; try discriminate.
  injection H as <-. repeat split; lia.
Qed.

Lemma analyze_loop_log (layout_res : list value) (ds : list Detection) (log : list level) :
  analyze_loop layout_res ds log =
  (fst (analyze_loop layout_res ds []), log ++ snd (analyze_loop layout_res ds [])).
Proof.
  revert ds log. induction layout_res as [|obj rest IH]; intros ds log; simpl.
  - by rewrite app_nil_r.
  - destruct (detection_of obj) as [d|e]; [apply IH|].
    destruct (caught e); simpl; [|by rewrite app_nil_r].
    rewrite (IH ds (log ++ [WARNING])), (IH ds [WARNING]). simpl.
    by rewrite <- app_assoc.
Qed.

Lemma analyze_loop_app (front back : list value) (ds : list Detection) (log : list level) :
  analyze_loop (front ++ back) ds log =
  match analyze_loop front ds log with
  | (Ok ds', log') => analyze_loop back ds' log'
  | (Raise e, log') => (Raise e, log')
  end.
Proof.
  revert ds log. induction front as [|obj rest IH]; intros ds log; simpl; [done|].
  destruct (detection_of obj) as [d|e]; [apply IH|].
  destruct (caught e); [apply IH | done].
Qed.

Lemma analyze_loop_ok (layout_res : list value) (ds ds' : list Detection)
    (log log' : list level) :
  analyze_loop layout_res ds log = (Ok ds', log') ->
  ds' = ds ++ omap kept layout_res /\
  log' = log ++ repeat WARNING (length (filter (fun obj => skipped obj = true) layout_res)).
Proof.
  revert ds log. induction layout_res as [|obj rest IH]; intros ds log H; simpl in *.
  - injection H as <- <-. by rewrite !app_nil_r.
  - unfold PaddleOCR.kept, PaddleOCR.skipped. rewrite filter_cons.
    destruct (detection_of obj) as [d|e].
    + apply IH in H as [-> ->]. rewrite decide_False by done.
      by rewrite <- app_assoc.
    + destruct (caught e); [|discriminate].
      apply IH in H as [-> ->]. rewrite decide_True by done.
      simpl. by rewrite <- app_assoc.
Qed.

Lemma analyze_loop_skip (front back : list value) (obj : value) :
  skipped obj = true ->
  fst (analyze_loop (front ++ obj :: back) [] []) =
  fst (analyze_loop (front ++ back) [] []).
Proof.
  intros Hskip. rewrite !analyze_loop_app.
  destruct (analyze_loop front [] []) as [[ds|e] log]; [|done].
  simpl. unfold PaddleOCR.skipped in Hskip.
  destruct (detection_of obj) as [d|e]; [discriminate|]. rewrite Hskip.
  by rewrite (analyze_loop_log back ds (log ++ [WARNING])), (analyze_loop_log back ds log).
Qed.

Lemma dict_lookup_app_absent (key : string) (fields extra : list (string * value)) :
  dict_lookup key fields = None ->
  dict_lookup key (fields ++ extra) = dict_lookup key extra.
Proof.
  induction fields as [|[k v] rest IH]; simpl; [done|].
  destruct (String.eqb k key); [discriminate | exact IH].
Qed.

Lemma dict_lookup_app_present (key : string) (fields extra : list (string * value)) (v : value) :
  dict_lookup key fields = Some v ->
  dict_lookup key (fields ++ extra) = Some v.
Proof.
  induction fields as [|[k w] rest IH]; simpl; [discriminate|].
  destruct (String.eqb k key); [done | exact IH].
Qed.

Lemma missing_bbox_skipped (obj : value) :
  has_field "block_bbox" obj = false -> skipped obj = true.
Proof.
  unfold PaddleOCR.skipped, PaddleOCR.detection_of, has_field.
  destruct obj as [| | | | | |fields]; try done.
  intros H. unfold subscript.
  destruct (dict_lookup "block_bbox" fields) as [v|] eqn:Hv; [|done].
  apply bool_decide_eq_false in H. destruct H. by exists v.
Qed.

Lemma missing_label_defaulted (fields : list (string * value)) :
  dict_lookup "block_label" fields = None ->
  detection_of (VDict fields) =
  detection_of (VDict (fields ++ [("block_label", VStr "unknown")])).
Proof.
  intros H. unfold PaddleOCR.detection_of, subscript, dict_get.
  rewrite (dict_lookup_app_absent _ _ _ H). simpl. rewrite H.
  destruct (dict_lookup "block_bbox" fields) as [raw|] eqn:Hraw.
  - by rewrite (dict_lookup_app_present _ _ _ _ Hraw).
  - rewrite (dict_lookup_app_absent _ _ _ Hraw). done.
Qed.

(** C3 (amended).  An entry of the layout output without a [block_bbox]
    field (or not an object at all) is skipped with a warning and the loop
    goes on: the outcome is what it is without the entry.  An entry that
    lacks only [block_label] is treated as the same entry labelled
    [unknown], so it is kept when its box is usable.  When the loop ends,
    the detections are, in order, exactly the entries from which a
    detection can be built, and one warning is logged per skipped entry. *)
Theorem missing_bbox_dropped_missing_label_defaulted
    (front back : list value) (obj : value) :
  (has_field "block_bbox" obj = false ->
     kept obj = None /\ skipped obj = true /\
     fst (analyze_loop (front ++ obj :: back) [] []) =
     fst (analyze_loop (front ++ back) [] [])) /\
  (forall fields, obj = VDict fields ->
     dict_lookup "block_label" fields = None ->
     kept obj = kept (VDict (fields ++ [("block_label", VStr "unknown")]))) /\
  (forall ds log, analyze_loop (front ++ obj :: back) [] [] = (Ok ds, log) ->
     ds = omap kept (front ++ obj :: back) /\
     log = repeat WARNING
             (length (filter (fun o => skipped o = true) (front ++ obj :: back)))).
Proof.
  split; [|split].
  - intros H. pose proof (missing_bbox_skipped _ H) as Hskip.
    split; [|split; [exact Hskip | by apply analyze_loop_skip]].
    unfold PaddleOCR.kept. unfold PaddleOCR.skipped in Hskip.
    by destruct (detection_of obj).
  - intros fields -> H. unfold PaddleOCR.kept.
    by rewrite (missing_label_defaulted _ H).
  - intros ds log H. by apply analyze_loop_ok in H.
Qed.

(** C4 (amended).  Every entry that is kept is an object whose
    [block_bbox] yields exactly four items; the coordinates of its box are
    the integers [int(...)] makes of them (a float is truncated), and each
    is at least 0, pydantic rejecting a negative one, which drops the
    entry.  No upper bound is applied. *)
Theorem kept_bbox_is_int_of_raw_and_nonnegative (obj : value) (d : Detection) :
  detection_of obj = Ok d ->
  exists fields raw va vb vc vd,
    obj = VDict fields /\
    dict_lookup "block_bbox" fields = Some raw /\
    iterate raw = Ok [va; vb; vc; vd] /\
    py_int va = Ok (x1 (bbox d)) /\ py_int vb = Ok (y1 (bbox d)) /\
    py_int vc = Ok (x2 (bbox d)) /\ py_int vd = Ok (y2 (bbox d)) /\
    0 <= x1 (bbox d) /\ 0 <= y1 (bbox d) /\ 0 <= x2 (bbox d) /\ 0 <= y2 (bbox d).
Proof.
  unfold PaddleOCR.detection_of. intros H.
  destruct obj as [| | | | | |fields]; try discriminate.
  apply bind_ok in H as (raw & Hraw & H).
  apply bind_ok in H as (items & Hitems & H).
  apply bind_ok in H as ([[[a b] c] e] & Hun & H).
  apply bind_ok in H as (box & Hbox & H).
  apply unpack4_ok in Hun as (va & vb & vc & vd & -> & Ha & Hb & Hc & He).
  apply new_BBox_ok in Hbox as (-> & ? & ? & ? & ?).
  unfold new_Detection in H.
  destruct (dict_get fields "block_label" (VStr "unknown")); try discriminate.
  injection H as <-. simpl.
  unfold subscript in Hraw.
  destruct (dict_lookup "block_bbox" fields) as [raw'|] eqn:Hlook; [|discriminate].
  injection Hraw as ->.
  exists fields, raw, va, vb, vc, vd. repeat split; assumption.
Qed.

End LayoutAdapter.

(** C3, as stated, fails: an entry without a label is not dropped; it is
    kept under the label [unknown], and no warning is logged. *)
Lemma missing_label_is_kept :
  PaddleOCR.has_field "block_label" entry_without_label = false /\
  PaddleOCR.analyze_loop Py.decimal [entry_without_label] [] [] =
  (Py.Ok [PaddleOCR.mkDetection (PaddleOCR.mkBBox 10 80 300 200) "unknown" None], []).
Proof. split; reflexivity. Qed.

Lemma missing_bbox_dropped_witness :
  PaddleOCR.has_field "block_bbox" entry_without_bbox = false /\
  fst (PaddleOCR.analyze_loop Py.decimal
         ([entry_text] ++ entry_without_bbox :: [entry_without_label]) [] []) =
  fst (PaddleOCR.analyze_loop Py.decimal ([entry_text] ++ [entry_without_label]) [] []) /\
  PaddleOCR.kept Py.decimal entry_without_label =
  PaddleOCR.kept Py.decimal
    (Py.VDict [("block_bbox", Py.VList [Py.VInt 10; Py.VInt 80; Py.VInt 300; Py.VInt 200]);
               ("block_label", Py.VStr "unknown")]) /\
  [PaddleOCR.mkDetection (PaddleOCR.mkBBox 10 20 300 60) "text" None;
   PaddleOCR.mkDetection (PaddleOCR.mkBBox 10 80 300 200) "unknown" None] =
  omap (PaddleOCR.kept Py.decimal)
    ([entry_text] ++ entry_without_bbox :: [entry_without_label]).
Proof.
  destruct (missing_bbox_dropped_missing_label_defaulted Py.decimal
              [entry_text] [entry_without_label] entry_without_bbox) as (Hdrop & _ & Hall).
  destruct (missing_bbox_dropped_missing_label_defaulted Py.decimal
              [] [] entry_without_label) as (_ & Hlabel & _).
  split; [reflexivity|]. split; [apply Hdrop; reflexivity|].
  split; [exact (Hlabel _ eq_refl eq_refl)|].
  exact (proj1 (Hall _ [PaddleOCR.WARNING] eq_refl)).
Defined.

(** C4, as stated, fails: nothing is clipped to the page. *)
Lemma off_page_box_is_not_clipped :
  exists d, PaddleOCR.detection_of Py.decimal entry_off_page = Py.Ok d /\
            ~ PaddleOCR.within_page 100 100 (PaddleOCR.bbox d).
Proof.
  eexists. split; [reflexivity|].
  unfold PaddleOCR.within_page. simpl. lia.
Qed.

Lemma kept_bbox_witness :
  exists fields raw va vb vc vd,
    entry_text = Py.VDict fields /\
    Py.dict_lookup "block_bbox" fields = Some raw /\
    Py.iterate raw = Py.Ok [va; vb; vc; vd] /\
    Py.py_int Py.decimal va = Py.Ok 10 /\ Py.py_int Py.decimal vb = Py.Ok 20 /\
    Py.py_int Py.decimal vc = Py.Ok 300 /\ Py.py_int Py.decimal vd = Py.Ok 60 /\
    0 <= 10 /\ 0 <= 20 /\ 0 <= 300 /\ 0 <= 60.
Proof.
  exact (kept_bbox_is_int_of_raw_and_nonnegative Py.decimal entry_text
           (PaddleOCR.mkDetection (PaddleOCR.mkBBox 10 20 300 60) "text" None)
           eq_refl).
Defined.

(** ** The endpoints of the preprocessing service *)

Section Endpoint.
Import Preprocessing.
Variable environ : string -> option string.
Variable run_pipeline : pipeline.

Local Abbreviation process_document := (Preprocessing.process_document environ run_pipeline).

(** The arguments with which a request reaches the pipeline. *)
Local Abbreviation pipeline_outcome req :=
  (run_pipeline (data (image req)) (PPSTRUCTURE_URL environ) (PADDLEVL_URL environ)
     (or_default (max_segments req) 8) (or_default (min_height req) 50)).

Lemma extend_all_concat (results : list (bytes * list DocumentSegment))
    (acc : list DocumentSegment) :
  extend_all results acc = acc ++ concat (map snd results).
Proof.
  revert acc. induction results as [|[img segs] rest IH]; intros acc; simpl.
  - by rewrite app_nil_r.
  - rewrite IH. by rewrite <- app_assoc.
Qed.

(** The two bounded fields of [ProcessResponse], [total_segments] and
    [elapsed_ms] (both declared [ge=0]), are within bounds in what the
    endpoint passes, so that building the response does not raise. *)
Lemma response_fields_in_bounds (clk : clock) (segs : list DocumentSegment) :
  0 <= Z.of_nat (length segs) /\ (0 <= elapsed clk)%Q.
Proof.
  split; [lia|]. unfold elapsed.
  apply Qmult_le_0_compat; [|discriminate].
  unfold Qminus. rewrite <- Qle_minus_iff. apply monotonic.
Qed.

(** Every answer with a body comes from a call of the pipeline that
    returned, and is built from its result as follows. *)
Lemma response_inv (clk : clock) (req : request) (resp : ProcessResponse) :
  fst (process_document clk req) = Response resp ->
  not_an_image (image req) = false /\
  exists results,
    pipeline_outcome req = Returned results /\
    resp = mkProcessResponse (concat (map snd results))
             (Z.of_nat (length (concat (map snd results)))) (elapsed clk) "success".
Proof.
  unfold Preprocessing.process_document.
  destruct (not_an_image (image req)); [discriminate|].
  destruct (run_pipeline _ _ _ _ _) as [results|e]; [|discriminate].
  simpl. intros H. injection H as <-. split; [done|].
  exists results. by rewrite extend_all_concat.
Qed.

(** C1 (amended).  Whenever [process_document] answers with a body, its
    status is [success], whatever the segments carry, and its segments are
    those of the pairs the pipeline returned, in their order.  There is no
    [partial] status. *)
Theorem status_is_success_whenever_answered (clk : clock) (req : request)
    (resp : ProcessResponse) :
  fst (process_document clk req) = Response resp ->
  status resp = "success" /\
  exists results,
    pipeline_outcome req = Returned results /\
    segments resp = concat (map snd results).
Proof.
  intros H. apply response_inv in H as (_ & results & Hrun & ->).
  split; [done|]. by exists results.
Qed.

(** C2 (amended).  An upload without a content type, or with one that does
    not start with [image/], is answered 400 at once: a warning is logged and
    the pipeline is not called.  Every other request reaches the pipeline,
    with its bytes as they are and with [max_segments] and [min_height] as
    given (8 and 50 when absent), whatever their values. *)
Theorem non_image_rejected_before_any_call (clk : clock) (req : request) :
  (not_an_image (image req) = true ->
     process_document clk req =
       (HTTPException 400 "File must be an image (JPEG, PNG, etc.)", [Log WARNING]) /\
     no_backend_call (snd (process_document clk req))) /\
  (not_an_image (image req) = false ->
     In (PipelineCall (data (image req)) (PPSTRUCTURE_URL environ) (PADDLEVL_URL environ)
           (or_default (max_segments req) 8) (or_default (min_height req) 50))
        (snd (process_document clk req))).
Proof.
  unfold Preprocessing.process_document. split; intros ->.
  - split; reflexivity.
  - destruct (run_pipeline _ _ _ _ _); simpl; auto.
Qed.

(** C7.  In every answer with a body, [total_segments] is the number of
    elements of [segments]. *)
Theorem total_segments_is_length (clk : clock) (req : request) (resp : ProcessResponse) :
  fst (process_document clk req) = Response resp ->
  total_segments resp = Z.of_nat (length (segments resp)).
Proof.
  intros H. by apply response_inv in H as (_ & results & _ & ->).
Qed.

(** Two calls with the same request, whose pipeline calls come out the
    same, give the same answer but for [elapsed_ms], whatever the clock
    reads, and the same events. *)
Lemma same_outcome_same_answer (run_pipeline' : pipeline)
    (clk clk' : clock) (req : request) :
  pipeline_outcome req =
    run_pipeline' (data (image req)) (PPSTRUCTURE_URL environ) (PADDLEVL_URL environ)
      (or_default (max_segments req) 8) (or_default (min_height req) 50) ->
  same_but_elapsed (fst (process_document clk req))
    (fst (Preprocessing.process_document environ run_pipeline' clk' req)) /\
  snd (process_document clk req) =
    snd (Preprocessing.process_document environ run_pipeline' clk' req).
Proof.
  unfold Preprocessing.process_document. intros <-.
  destruct (not_an_image (image req)); [done|].
  by destruct (run_pipeline _ _ _ _ _).
Qed.

(** C10.  [health_check] answers [healthy] for [Preprocessing] whatever the
    state of the service and of its backends. *)
Theorem health_check_always_healthy (State : Type) (s : State) :
  health_check s = mkHealthResponse "healthy" "Preprocessing" /\
  health_status (health_check s) = "healthy" /\
  service (health_check s) = "Preprocessing".
Proof. repeat split. Qed.

End Endpoint.

(** C1, as stated, fails: with three bands of which the second failed to
    extract, the answer has three segments, the second alone carrying an
    error marker, and the status the specification asks for is [partial];
    the status answered is [success]. *)
Lemma one_failed_band_of_three_is_success :
  exists resp,
    fst (Preprocessing.process_document no_environ stub_three_bands clock_a png_request)
      = Preprocessing.Response resp /\
    length (Preprocessing.segments resp) = 3%nat /\
    map Coordinator.carries_error_marker (Preprocessing.segments resp)
      = [false; true; false] /\
    Coordinator.aggregate_status
      (map Coordinator.carries_error_marker (Preprocessing.segments resp))
      = Some "partial" /\
    Preprocessing.status resp = "success" /\
    Preprocessing.status resp <> "partial".
Proof. eexists. repeat split. simpl. discriminate. Qed.

Lemma status_is_success_witness :
  Preprocessing.status
    (Preprocessing.mkProcessResponse (concat (map snd three_bands)) 3
       (Preprocessing.elapsed clock_a) "success") = "success" /\
  exists results,
    stub_three_bands (Preprocessing.data (Preprocessing.image png_request))
      (Preprocessing.PPSTRUCTURE_URL no_environ) (Preprocessing.PADDLEVL_URL no_environ)
      8 50 = Preprocessing.Returned results /\
    concat (map snd three_bands) = concat (map snd results).
Proof.
  exact (status_is_success_whenever_answered no_environ stub_three_bands clock_a
           png_request _ eq_refl).
Defined.

(** C2, as stated, fails: bytes that are no image, sent as [image/png] with
    [max_segments = 0] and [min_height = -5], are not answered 400; the
    pipeline is called with these very arguments. *)
Lemma out_of_range_request_reaches_the_pipeline :
  Preprocessing.process_document no_environ stub_raising clock_a out_of_range_request =
    (Preprocessing.HTTPException 500
       "Failed to process document: All connection attempts failed",
     [Preprocessing.Log Preprocessing.INFO;
      Preprocessing.PipelineCall [Byte.x00] "http://paddleocr:8080"
        "http://paddleocr-vl:8080" 0 (-5);
      Preprocessing.Log Preprocessing.ERROR]) /\
  ~ Preprocessing.no_backend_call
      (snd (Preprocessing.process_document no_environ stub_raising clock_a
              out_of_range_request)).
Proof. split; [reflexivity | discriminate]. Qed.

Lemma non_image_rejected_witness :
  Preprocessing.not_an_image (Preprocessing.image pdf_request) = true /\
  Preprocessing.process_document no_environ stub_three_bands clock_a pdf_request =
    (Preprocessing.HTTPException 400 "File must be an image (JPEG, PNG, etc.)",
     [Preprocessing.Log Preprocessing.WARNING]) /\
  Preprocessing.not_an_image (Preprocessing.image png_request) = false /\
  In (Preprocessing.PipelineCall
        [Byte.x89; Byte.x50; Byte.x4e; Byte.x47]
        "http://paddleocr:8080" "http://paddleocr-vl:8080" 8 50)
     (snd (Preprocessing.process_document no_environ stub_three_bands clock_a png_request)).
Proof.
  split; [reflexivity|]. split.
  - apply (non_image_rejected_before_any_call no_environ stub_three_bands clock_a
             pdf_request). reflexivity.
  - split; [reflexivity|].
    apply (non_image_rejected_before_any_call no_environ stub_three_bands clock_a
             png_request). reflexivity.
Defined.

Lemma total_segments_witness :
  Preprocessing.total_segments
    (Preprocessing.mkProcessResponse (concat (map snd three_bands)) 3
       (Preprocessing.elapsed clock_a) "success") = Z.of_nat 3.
Proof.
  exact (total_segments_is_length no_environ stub_three_bands clock_a png_request
           _ eq_refl).
Defined.

(** ** The coordinator *)

Section CoordinatorFacts.
Import Coordinator.
Variable detect : bytes -> layout_reply.
Variable extract : bytes -> ExtractedContent.
Variable crop : bytes -> BBox -> bytes.

Local Abbreviation content_of := (Coordinator.content_of extract crop).
Local Abbreviation completions := (Coordinator.completions extract crop).
Local Abbreviation run := (Coordinator.run detect extract crop).

Lemma partition_indexed (page_height page_width : Z) (regions : list Region)
    (max_segments min_height : Z) :
  indexed (partition page_height page_width regions max_segments min_height).
Proof.
  unfold partition, indexed. intros i b.
  destruct (sort_regions regions) as [|r rest].
  - destruct i as [|i]; simpl; [|done]. by intros [= <-].
  - rewrite list_lookup_imap. destruct (_ !! i) as [g|]; simpl; [|done].
    by intros [= <-].
Qed.

Lemma gather_snoc (done : list (nat * ExtractedContent)) (k : nat) (c : ExtractedContent) :
  gather (done ++ [(k, c)]) = <[k := c]> (gather done).
Proof. unfold gather. by rewrite foldl_snoc. Qed.

(** The results map after any sequence of completions: a band that has
    completed, however often and in whatever order, has its own content
    under its index, and no other key is set. *)
Lemma gather_lookup (image_bytes : bytes) (bands : list Band) (schedule : list nat)
    (k : nat) :
  indexed bands ->
  gather (completions schedule image_bytes bands) !! k =
  if decide (k ∈ schedule) then content_of image_bytes <$> bands !! k else None.
Proof.
  intros Hidx. induction schedule as [|i done IH] using rev_ind.
  - rewrite decide_False by apply not_elem_of_nil. apply lookup_empty.
  - unfold Coordinator.completions in *. rewrite omap_app. simpl.
    destruct (bands !! i) as [b|] eqn:Hb; simpl.
    + rewrite gather_snoc. rewrite (Hidx _ _ Hb).
      destruct (decide (k = i)) as [->|Hne].
      * rewrite lookup_insert_eq, Hb. simpl.
        rewrite decide_True; [done|]. apply elem_of_app. right. by left.
      * rewrite lookup_insert_ne by done. rewrite IH.
        destruct (decide (k ∈ done)) as [Hin|Hnin].
        -- rewrite decide_True; [done|]. apply elem_of_app. by left.
        -- rewrite decide_False; [done|].
           rewrite elem_of_app, list_elem_of_singleton. tauto.
    + rewrite app_nil_r, IH.
      destruct (decide (k ∈ done)) as [Hin|Hnin].
      * rewrite decide_True; [done|]. apply elem_of_app. by left.
      * destruct (decide (k = i)) as [->|Hne].
        -- rewrite Hb. simpl. by destruct (decide _).
        -- rewrite decide_False; [done|].
           rewrite elem_of_app, list_elem_of_singleton. tauto.
Qed.

Lemma merge_in_band_order (image_bytes : bytes) (bands : list Band)
    (results : gmap nat ExtractedContent) :
  (forall b, b ∈ bands -> results !! index b = Some (content_of image_bytes b)) ->
  merge bands results =
  Some (map (fun b => segment_of b (content_of image_bytes b)) bands).
Proof.
  induction bands as [|b rest IH]; intros H; simpl; [done|].
  rewrite (H b) by left. simpl.
  rewrite IH; [done|]. intros b' Hb'. apply H. by right.
Qed.

(** C5.  When the layout call fails, the run fails with the
    upstream-unavailable error and has no segments; and in the endpoint
    every exception of the pipeline call ends the request with an error
    answer that carries its text, never with a body. *)
Theorem layout_failure_fails_the_run (schedule : list nat) (image_bytes : bytes)
    (max_segments min_height : Z) (reason : string) :
  detect image_bytes = LayoutFailed reason ->
  run schedule image_bytes max_segments min_height
    = Some (inl (UpstreamUnavailable reason)) /\
  segments_of (run schedule image_bytes max_segments min_height) = [] /\
  (forall environ run_pipeline clk req e,
     Preprocessing.not_an_image (Preprocessing.image req) = false ->
     run_pipeline (Preprocessing.data (Preprocessing.image req))
       (Preprocessing.PPSTRUCTURE_URL environ) (Preprocessing.PADDLEVL_URL environ)
       (Preprocessing.or_default (Preprocessing.max_segments req) 8)
       (Preprocessing.or_default (Preprocessing.min_height req) 50)
       = Preprocessing.Raised e ->
     fst (Preprocessing.process_document environ run_pipeline clk req) =
       Preprocessing.HTTPException 500
         ("Failed to process document: " ++ Preprocessing.exc_text e)%string).
Proof.
  intros Hdown. unfold Coordinator.run. rewrite Hdown. repeat split.
  intros environ run_pipeline clk req e Himg Hraise.
  unfold Preprocessing.process_document. by rewrite Himg, Hraise.
Qed.

(** C6.  Whatever the order in which the extraction calls of a run
    complete, the segments of the result are those of the bands, in band
    order, each with the content extracted from its own band; and the
    endpoint hands on the segments of the pipeline's pairs in their order. *)
Theorem segments_follow_band_order (schedule : list nat) (image_bytes : bytes)
    (max_segments min_height page_width page_height : Z) (regions : list Region) :
  detect image_bytes = LayoutOk page_width page_height regions ->
  schedule ≡ₚ seq 0 (length (partition page_height page_width regions
                              max_segments min_height)) ->
  (exists result,
     run schedule image_bytes max_segments min_height = Some (inr result) /\
     segments result =
       map (fun b => segment_of b (content_of image_bytes b))
         (partition page_height page_width regions max_segments min_height) /\
     map index (partition page_height page_width regions max_segments min_height)
       = seq 0 (length (segments result))) /\
  (forall results acc,
     Preprocessing.extend_all results acc = acc ++ concat (map snd results)).
Proof.
  intros Hlayout Hperm. split; [|apply extend_all_concat].
  unfold Coordinator.run. rewrite Hlayout. simpl.
  set (bands := partition _ _ _ _ _) in *.
  pose proof (partition_indexed page_height page_width regions
                max_segments min_height) as Hidx.
  fold bands in Hidx.
  rewrite (merge_in_band_order image_bytes bands).
  - simpl. eexists. split; [reflexivity|]. split; [reflexivity|]. simpl.
    rewrite length_map. apply list_eq. intros i.
    rewrite list_lookup_fmap.
    destruct (bands !! i) as [b|] eqn:Hb; simpl.
    + rewrite (Hidx _ _ Hb). symmetry. apply lookup_seq.
      split; [done|]. by apply lookup_lt_Some in Hb.
    + symmetry. apply lookup_seq_ge. by apply lookup_ge_None in Hb.
  - intros b Hb. apply list_elem_of_lookup in Hb as [i Hi].
    rewrite (gather_lookup _ _ _ _ Hidx), (Hidx _ _ Hi).
    rewrite decide_True, Hi; [done|].
    rewrite Hperm. apply elem_of_seq. apply lookup_lt_Some in Hi. lia.
Qed.

(** C9.  Without regions, the partitioner returns one band, and it is the
    whole page. *)
Theorem no_regions_one_band_spanning_the_page
    (page_height page_width max_segments min_height : Z) :
  exists b,
    partition page_height page_width [] max_segments min_height = [b] /\
    spans_page page_height page_width b /\
    index b = 0%nat /\ member_regions b = [].
Proof. eexists. repeat split. Qed.

Lemma run_finishes (schedule : list nat) (image_bytes : bytes)
    (max_segments min_height page_width page_height : Z) (regions : list Region) :
  detect image_bytes = LayoutOk page_width page_height regions ->
  schedule ≡ₚ seq 0 (length (partition page_height page_width regions
                              max_segments min_height)) ->
  run schedule image_bytes max_segments min_height =
  Some (inr (mkPipelineResult
               (map (fun b => segment_of b (content_of image_bytes b))
                  (partition page_height page_width regions max_segments min_height))
               (length (map (fun b => segment_of b (content_of image_bytes b))
                  (partition page_height page_width regions max_segments min_height)))
               (aggregate_status
                  (map reported_error
                     (map (fun b => segment_of b (content_of image_bytes b))
                        (partition page_height page_width regions
                           max_segments min_height)))))).
Proof.
  intros Hlayout Hperm. unfold Coordinator.run. rewrite Hlayout. simpl.
  set (bands := partition _ _ _ _ _) in *.
  pose proof (partition_indexed page_height page_width regions
                max_segments min_height) as Hidx.
  fold bands in Hidx.
  rewrite (merge_in_band_order image_bytes bands); [done|].
  intros b Hb. apply list_elem_of_lookup in Hb as [i Hi].
  rewrite (gather_lookup _ _ _ _ Hidx), (Hidx _ _ Hi).
  rewrite decide_True, Hi; [done|].
  rewrite Hperm. apply elem_of_seq. apply lookup_lt_Some in Hi. lia.
Qed.

(** C8.  Two invocations on the same request, with the same backend
    responses, whose extraction calls complete in two different orders and
    whose clocks read differently: the two runs of the coordinator finish
    with the same result, and the two answers of the endpoint are the same
    but for [elapsed_ms], with the same events, in whatever form the run's
    result is handed to the endpoint. *)
Theorem two_invocations_agree_but_for_elapsed
    (present : option (failure + PipelineResult) -> Preprocessing.outcome)
    (environ : string -> option string) (schedule schedule' : list nat)
    (clk clk' : Preprocessing.clock) (req : Preprocessing.request) :
  schedule ≡ₚ Invocation.band_positions detect
                (Preprocessing.data (Preprocessing.image req))
                (Preprocessing.or_default (Preprocessing.max_segments req) 8)
                (Preprocessing.or_default (Preprocessing.min_height req) 50) ->
  schedule' ≡ₚ Invocation.band_positions detect
                 (Preprocessing.data (Preprocessing.image req))
                 (Preprocessing.or_default (Preprocessing.max_segments req) 8)
                 (Preprocessing.or_default (Preprocessing.min_height req) 50) ->
  is_Some (run schedule (Preprocessing.data (Preprocessing.image req))
             (Preprocessing.or_default (Preprocessing.max_segments req) 8)
             (Preprocessing.or_default (Preprocessing.min_height req) 50)) /\
  run schedule (Preprocessing.data (Preprocessing.image req))
    (Preprocessing.or_default (Preprocessing.max_segments req) 8)
    (Preprocessing.or_default (Preprocessing.min_height req) 50) =
  run schedule' (Preprocessing.data (Preprocessing.image req))
    (Preprocessing.or_default (Preprocessing.max_segments req) 8)
    (Preprocessing.or_default (Preprocessing.min_height req) 50) /\
  Preprocessing.same_but_elapsed
    (fst (Preprocessing.process_document environ
            (Invocation.pipeline_of detect extract crop present schedule) clk req))
    (fst (Preprocessing.process_document environ
            (Invocation.pipeline_of detect extract crop present schedule') clk' req)) /\
  snd (Preprocessing.process_document environ
         (Invocation.pipeline_of detect extract crop present schedule) clk req) =
  snd (Preprocessing.process_document environ
         (Invocation.pipeline_of detect extract crop present schedule') clk' req).
Proof.
  intros Hs Hs'.
  assert (Hrun :
    is_Some (run schedule (Preprocessing.data (Preprocessing.image req))
               (Preprocessing.or_default (Preprocessing.max_segments req) 8)
               (Preprocessing.or_default (Preprocessing.min_height req) 50)) /\
    run schedule (Preprocessing.data (Preprocessing.image req))
      (Preprocessing.or_default (Preprocessing.max_segments req) 8)
      (Preprocessing.or_default (Preprocessing.min_height req) 50) =
    run schedule' (Preprocessing.data (Preprocessing.image req))
      (Preprocessing.or_default (Preprocessing.max_segments req) 8)
      (Preprocessing.or_default (Preprocessing.min_height req) 50)).
  { unfold Invocation.band_positions in Hs, Hs'.
    destruct (detect (Preprocessing.data (Preprocessing.image req)))
      as [page_width page_height regions|reason] eqn:Hlayout.
    - rewrite (run_finishes _ _ _ _ _ _ _ Hlayout Hs),
              (run_finishes _ _ _ _ _ _ _ Hlayout Hs').
      split; [by eexists | done].
    - unfold Coordinator.run. rewrite Hlayout. split; [by eexists | done]. }
  destruct Hrun as [Hsome Heq]. split; [done|]. split; [done|].
  apply same_outcome_same_answer. unfold Invocation.pipeline_of. by rewrite Heq.
Qed.

End CoordinatorFacts.

Lemma layout_failure_witness :
  Coordinator.run stub_detect_down stub_extract stub_crop last_band_first
    [Byte.x89] 8 50 = Some (inl (Coordinator.UpstreamUnavailable "connection refused")) /\
  fst (Preprocessing.process_document no_environ stub_raising clock_a png_request) =
    Preprocessing.HTTPException 500
      "Failed to process document: All connection attempts failed".
Proof.
  destruct (layout_failure_fails_the_run stub_detect_down stub_extract stub_crop
              last_band_first [Byte.x89] 8 50 "connection refused" eq_refl)
    as (Hrun & _ & Hendpoint).
  split; [exact Hrun|].
  exact (Hendpoint no_environ stub_raising clock_a png_request _ eq_refl eq_refl).
Defined.

Lemma band_order_witness :
  exists result,
    Coordinator.run stub_detect stub_extract stub_crop last_band_first
      [Byte.x89] 8 50 = Some (inr result) /\
    map (fun s => Coordinator.text (Coordinator.content s)) (Coordinator.segments result)
      = ["Title"; ""; "Footer"] /\
    map Coordinator.reported_error (Coordinator.segments result) = [false; true; false] /\
    Coordinator.status result = Some "partial".
Proof.
  destruct (segments_follow_band_order stub_detect stub_extract stub_crop
              last_band_first [Byte.x89] 8 50 800 1000 scenario_regions eq_refl
              (Permutation_cons_app [0%nat; 1%nat] [] 2%nat (Permutation_refl _)))
    as [(result & Hrun & Hsegs & _) _].
  exists result. split; [exact Hrun|].
  unfold Coordinator.run in Hrun. simpl in Hrun.
  injection Hrun as <-. repeat split.
Defined.

Lemma two_invocations_witness :
  is_Some (Coordinator.run stub_detect stub_extract stub_crop last_band_first
             (Preprocessing.data png_upload) 8 50) /\
  Coordinator.run stub_detect stub_extract stub_crop last_band_first
    (Preprocessing.data png_upload) 8 50 =
  Coordinator.run stub_detect stub_extract stub_crop first_band_first
    (Preprocessing.data png_upload) 8 50 /\
  Preprocessing.same_but_elapsed
    (fst (Preprocessing.process_document no_environ
            (Invocation.pipeline_of stub_detect stub_extract stub_crop
               present_as_pairs last_band_first) clock_a png_request))
    (fst (Preprocessing.process_document no_environ
            (Invocation.pipeline_of stub_detect stub_extract stub_crop
               present_as_pairs first_band_first) clock_b png_request)) /\
  snd (Preprocessing.process_document no_environ
         (Invocation.pipeline_of stub_detect stub_extract stub_crop
            present_as_pairs last_band_first) clock_a png_request) =
  snd (Preprocessing.process_document no_environ
         (Invocation.pipeline_of stub_detect stub_extract stub_crop
            present_as_pairs first_band_first) clock_b png_request).
Proof.
  exact (two_invocations_agree_but_for_elapsed stub_detect stub_extract stub_crop
           present_as_pairs no_environ last_band_first first_band_first
           clock_a clock_b png_request
           (Permutation_cons_app [0%nat; 1%nat] [] 2%nat (Permutation_refl _))
           (Permutation_refl _)).
Defined.

(** * Further properties of the code *)

(** ** The loop of [analyze_document], entry by entry *)

Section LayoutLoop.
Import Py PaddleOCR.
Variable int_of_text : string -> option Z.

Local Abbreviation py_int := (Py.py_int int_of_text).
Local Abbreviation pull := (Py.pull int_of_text).
Local Abbreviation unpack4 := (Py.unpack4 int_of_text).
Local Abbreviation detection_of := (PaddleOCR.detection_of int_of_text).
Local Abbreviation analyze_loop := (PaddleOCR.analyze_loop int_of_text).
Local Abbreviation analyze_layout := (PaddleOCR.analyze_layout int_of_text).
Local Abbreviation kept := (PaddleOCR.kept int_of_text).
Local Abbreviation skipped := (PaddleOCR.skipped int_of_text).

Lemma bind_raise {A B : Type} (m : res A) (k : A -> res B) (e : exc) :
  m ≫= k = Raise e -> m = Raise e \/ exists a, m = Ok a /\ k a = Raise e.
Proof.
  destruct m as [a|e']; simpl; intros H; [right; eauto|].
  injection H as ->. by left.
Qed.

(** The only conversion that raises what the loop does not catch is that
    of an infinite float. *)
Lemma py_int_raise (v : value) (e : exc) :
  py_int v = Raise e ->
  caught e = true \/ (e = OverflowError /\ exists negative, v = VFloat (FInf negative)).
Proof.
  destruct v as [| | |[q| |negative]|s| |]; simpl; try discriminate;
    try (intros [= <-]; by left).
  - intros [= <-]. right. eauto.
  - destruct (int_of_text s); [discriminate|]. intros [= <-]. by left.
Qed.

Lemma pull_raise (n : nat) (items : list value) (e : exc) :
  pull n items = Raise e ->
  caught e = true \/ (e = OverflowError /\ LayoutService.infinite_among n items).
Proof.
  revert items. induction n as [|n IH]; intros items H; [discriminate|].
  destruct items as [|v rest]; simpl in H.
  - injection H as <-. by left.
  - apply bind_raise in H as [H|(z & Hz & H)].
    + apply py_int_raise in H as [H|[-> [negative ->]]]; [by left|].
      right. split; [done|]. exists negative. simpl. by left.
    + apply bind_raise in H as [H|([zs extra] & _ & H)]; [|discriminate].
      apply IH in H as [H|[-> [negative Hin]]]; [by left|].
      right. split; [done|]. exists negative. simpl. by right.
Qed.

Lemma unpack4_raise (items : list value) (e : exc) :
  unpack4 items = Raise e ->
  caught e = true \/ (e = OverflowError /\ LayoutService.infinite_among 5 items).
Proof.
  unfold Py.unpack4. intros H.
  apply bind_raise in H as [H|([zs extra] & Hp & H)].
  - apply pull_raise in H as [H|[-> [negative Hin]]]; [by left|].
    right. split; [done|]. exists negative.
    apply elem_of_take in Hin as (i & Hi & Hlt).
    apply elem_of_take. exists i. split; [done | lia].
  - apply pull_ok in Hp as (vs & -> & Hlen & _).
    destruct extra as [|fifth more].
    + destruct zs as [|? [|? [|? [|? [|? ?]]]]];
        first [discriminate | injection H as <-; by left].
    + assert (Hfifth : py_int fifth ≫= (λ _ : Z, Raise ValueError)
                       = (Raise e : res (Z * Z * Z * Z))).
      { by destruct zs as [|? [|? [|? [|? [|? ?]]]]]. }
      apply bind_raise in Hfifth as [Hf|(z & _ & Hf)].
      * apply py_int_raise in Hf as [Hf|[-> [negative ->]]]; [by left|].
        right. split; [done|]. exists negative.
        rewrite take_app_ge by lia. rewrite Hlen.
        apply elem_of_app. right. simpl. by left.
      * injection Hf as <-. by left.
Qed.

Lemma detection_of_raise (obj : value) (e : exc) :
  detection_of obj = Raise e ->
  caught e = true \/
  (e = OverflowError /\
   exists fields raw items,
     obj = VDict fields /\ dict_lookup "block_bbox" fields = Some raw /\
     iterate raw = Ok items /\ LayoutService.infinite_among 5 items).
Proof.
  unfold PaddleOCR.detection_of. intros H.
  destruct obj as [| | | | | |fields]; try (injection H as <-; by left).
  apply bind_raise in H as [H|(raw & Hraw & H)].
  { unfold subscript in H. destruct (dict_lookup _ _); [discriminate|].
    injection H as <-. by left. }
  unfold subscript in Hraw.
  destruct (dict_lookup "block_bbox" fields) as [raw'|] eqn:Hlook; [|discriminate].
  injection Hraw as ->.
  apply bind_raise in H as [H|(items & Hitems & H)].
  { destruct raw; simpl in H; try discriminate; injection H as <-; by left. }
  apply bind_raise in H as [H|([[[a b] c] d] & _ & H)].
  { apply unpack4_raise in H as [H|[-> Hinf]]; [by left|].
    right. split; [done|]. by exists fields, raw, items. }
  apply bind_raise in H as [H|(box & _ & H)].
  { unfold new_BBox in H. destruct (_ && _); [discriminate|].
    injection H as <-. by left. }
  unfold new_Detection in H.
  destruct (dict_get _ _ _); try discriminate; injection H as <-; by left.
Qed.

Lemma analyze_loop_acc (layout_res : list value) (ds : list Detection) (log : list level) :
  analyze_loop layout_res ds log =
  match analyze_loop layout_res [] [] with
  | (Ok ds0, log0) => (Ok (ds ++ ds0), log ++ log0)
  | (Raise e, log0) => (Raise e, log ++ log0)
  end.
Proof.
  revert ds log. induction layout_res as [|obj rest IH]; intros ds log; simpl.
  - by rewrite !app_nil_r.
  - destruct (detection_of obj) as [d|e].
    + rewrite (IH (ds ++ [d]) log), (IH [d] []).
      destruct (analyze_loop rest [] []) as [[ds0|e0] log0]; [|done].
      by rewrite <- app_assoc.
    + destruct (caught e); [|by rewrite app_nil_r].
      rewrite (IH ds (log ++ [WARNING])), (IH [] [WARNING]).
      destruct (analyze_loop rest [] []) as [[ds0|e0] log0];
        by rewrite <- app_assoc.
Qed.

Lemma analyze_loop_count (layout_res : list value) (ds ds' : list Detection)
    (log log' : list level) :
  analyze_loop layout_res ds log = (Ok ds', log') ->
  (length ds' + length log' = length ds + length log + length layout_res)%nat.
Proof.
  revert ds log. induction layout_res as [|obj rest IH]; intros ds log H; simpl in *.
  - injection H as <- <-. lia.
  - destruct (detection_of obj) as [d|e].
    + apply IH in H. rewrite length_app in H. simpl in H. lia.
    + destruct (caught e); [|discriminate].
      apply IH in H. rewrite length_app in H. simpl in H. lia.
Qed.

(** X1.  When the loop ends, every entry is accounted for: it gave a
    detection or it was skipped with one warning, and nothing else is
    logged. *)
Theorem loop_accounts_for_every_entry (layout_res : list value)
    (ds : list Detection) (log : list level) :
  analyze_loop layout_res [] [] = (Ok ds, log) ->
  (length ds + length log = length layout_res)%nat /\
  log = repeat WARNING (length layout_res - length ds).
Proof.
  intros H. pose proof (analyze_loop_count _ _ _ _ _ H) as Hcount. simpl in Hcount.
  split; [lia|].
  apply analyze_loop_ok in H as [_ Hlog]. simpl in Hlog.
  rewrite Hlog, repeat_length in Hcount. rewrite Hlog. f_equal. lia.
Qed.

(** X2.  The loop leaves with an exception only for [OverflowError], and
    only when some entry is an object whose [block_bbox] has an infinite
    float among its first five items; the endpoint then answers 500. *)
Theorem loop_fails_only_on_infinite_float (layout_res : list value) (e : exc)
    (log : list level) :
  analyze_loop layout_res [] [] = (Raise e, log) ->
  e = OverflowError /\
  (exists obj fields raw items,
     obj ∈ layout_res /\ obj = VDict fields /\
     dict_lookup "block_bbox" fields = Some raw /\ iterate raw = Ok items /\
     LayoutService.infinite_among 5 items) /\
  fst (analyze_layout layout_res) = HTTPException 500.
Proof.
  intros H. split; [|split].
  - revert H. generalize (@nil Detection) at 1. generalize (@nil level) at 1.
    induction layout_res as [|obj rest IH]; intros lg ds H; simpl in H; [discriminate|].
    destruct (detection_of obj) as [d|e'] eqn:Hobj; [by eapply IH|].
    destruct (caught e') eqn:Hc; [by eapply IH|].
    injection H as <- <-.
    apply detection_of_raise in Hobj as [Hobj|[-> _]]; [congruence | done].
  - revert H. generalize (@nil Detection) at 1. generalize (@nil level) at 1.
    induction layout_res as [|obj rest IH]; intros lg ds H; simpl in H; [discriminate|].
    destruct (detection_of obj) as [d|e'] eqn:Hobj.
    { destruct (IH _ _ H) as (o & f & r & i & Hin & Hrest).
      exists o, f, r, i. split; [by right | done]. }
    destruct (caught e') eqn:Hc.
    { destruct (IH _ _ H) as (o & f & r & i & Hin & Hrest).
      exists o, f, r, i. split; [by right | done]. }
    apply detection_of_raise in Hobj as [Hobj|[_ (f & r & i & Hrest)]]; [congruence|].
    exists obj, f, r, i. split; [by left | done].
  - unfold PaddleOCR.analyze_layout. by rewrite H.
Qed.

(** X3.  The loop over a list in two parts: a failure in the first part is
    the outcome, the second part not being looked at; otherwise the second
    part goes on from the detections and warnings of the first. *)
Theorem loop_over_two_parts (front back : list value) :
  analyze_loop (front ++ back) [] [] =
  match analyze_loop front [] [] with
  | (Ok ds1, log1) =>
      match analyze_loop back [] [] with
      | (Ok ds2, log2) => (Ok (ds1 ++ ds2), log1 ++ log2)
      | (Raise e, log2) => (Raise e, log1 ++ log2)
      end
  | (Raise e, log1) => (Raise e, log1)
  end.
Proof.
  rewrite analyze_loop_app.
  destruct (analyze_loop front [] []) as [[ds1|e] log1]; [|done].
  apply analyze_loop_acc.
Qed.

Lemma trunc_nonneg (q : Q) : 0 <= trunc q <-> (-1 < q)%Q.
Proof.
  destruct q as [n d]. unfold trunc, Qlt. simpl.
  destruct (Z_lt_le_dec n 0) as [Hneg|Hpos].
  - replace n with (- - n) at 1 by lia.
    rewrite Z.quot_opp_l by lia.
    pose proof (Z.quot_pos (- n) (Z.pos d) ltac:(lia) ltac:(lia)) as Hq.
    pose proof (Z.quot_small_iff (- n) (Z.pos d) ltac:(lia)) as Hsmall.
    rewrite Z.abs_eq in Hsmall by lia. rewrite Z.abs_eq in Hsmall by lia.
    split; intros H.
    + assert (Hz : - n ÷ Z.pos d = 0) by lia. apply Hsmall in Hz. lia.
    + assert (Hz : - n ÷ Z.pos d = 0) by (apply Hsmall; lia). lia.
  - pose proof (Z.quot_pos n (Z.pos d) Hpos ltac:(lia)). lia.
Qed.

(** X4.  A box of four finite floats is kept exactly when each of them is
    above -1, and its coordinates are then the floats truncated toward
    zero (so that -0.5 becomes 0); with a float at or below -1 the entry is
    rejected by the model and skipped. *)
Theorem float_box_kept_iff_above_minus_one (q1 q2 q3 q4 : Q) (label : string) :
  ((-1 < q1)%Q /\ (-1 < q2)%Q /\ (-1 < q3)%Q /\ (-1 < q4)%Q ->
     detection_of (LayoutService.float_entry q1 q2 q3 q4 label) =
     Ok (mkDetection (mkBBox (trunc q1) (trunc q2) (trunc q3) (trunc q4)) label None)) /\
  (~ ((-1 < q1)%Q /\ (-1 < q2)%Q /\ (-1 < q3)%Q /\ (-1 < q4)%Q) ->
     detection_of (LayoutService.float_entry q1 q2 q3 q4 label) = Raise ValidationError /\
     skipped (LayoutService.float_entry q1 q2 q3 q4 label) = true).
Proof.
  assert (Heq : detection_of (LayoutService.float_entry q1 q2 q3 q4 label) =
                b ← new_BBox (trunc q1) (trunc q2) (trunc q3) (trunc q4);
                new_Detection b (VStr label)) by reflexivity.
  unfold PaddleOCR.skipped. rewrite Heq. unfold new_BBox.
  pose proof (trunc_nonneg q1) as T1. pose proof (trunc_nonneg q2) as T2.
  pose proof (trunc_nonneg q3) as T3. pose proof (trunc_nonneg q4) as T4.
  destruct (Z.leb_spec 0 (trunc q1)), (Z.leb_spec 0 (trunc q2)),
           (Z.leb_spec 0 (trunc q3)), (Z.leb_spec 0 (trunc q4)); simpl;
    (split; [intros (? & ? & ? & ?) | intros Hnot]); try done;
    exfalso; intuition lia.
Qed.

(** X5.  A box of integers is kept, unchanged, exactly when it has four
    items and none is negative; with another number of items it raises
    [ValueError], with a negative item the model rejects it, and either
    way the entry is skipped. *)
Theorem int_box_kept_iff_four_nonnegative (coordinates : list Z) (label : string) :
  detection_of (LayoutService.int_entry coordinates label) =
  match coordinates with
  | [a; b; c; d] =>
      if (0 <=? a) && (0 <=? b) && (0 <=? c) && (0 <=? d)
      then Ok (mkDetection (mkBBox a b c d) label None)
      else Raise ValidationError
  | _ => Raise ValueError
  end.
Proof.
  destruct coordinates as [|a [|b [|c [|d [|e more]]]]]; try reflexivity.
  unfold LayoutService.int_entry, PaddleOCR.detection_of, new_BBox. simpl.
  by destruct ((0 <=? a) && (0 <=? b) && (0 <=? c) && (0 <=? d)).
Qed.

Lemma analyze_loop_escape (obj : value) (rest : list value) (e : exc)
    (ds : list Detection) (log : list level) :
  detection_of obj = Raise e -> caught e = false ->
  analyze_loop (obj :: rest) ds log = (Raise e, log).
Proof. intros Hobj Hc. simpl. by rewrite Hobj, Hc. Qed.

(** X6.  One infinite float among the first five items of a box, after
    integers, fails the whole request: whatever the other entries are, the
    endpoint answers 500 once the loop reaches that entry. *)
Theorem infinite_coordinate_fails_the_request (front back : list value)
    (fields : list (string * value)) (coordinates : list Z) (negative : bool)
    (more : list value) (ds : list Detection) :
  (length coordinates <= 4)%nat ->
  dict_lookup "block_bbox" fields =
    Some (VList (map VInt coordinates ++ VFloat (FInf negative) :: more)) ->
  fst (analyze_loop front [] []) = Ok ds ->
  detection_of (VDict fields) = Raise OverflowError /\
  fst (analyze_layout (front ++ VDict fields :: back)) = HTTPException 500.
Proof.
  intros Hlen Hbox Hfront.
  assert (Hobj : detection_of (VDict fields) = Raise OverflowError).
  { unfold PaddleOCR.detection_of, subscript. rewrite Hbox.
    destruct coordinates as [|a [|b [|c [|d [|e rest]]]]]; try reflexivity.
    simpl in Hlen. lia. }
  split; [exact Hobj|].
  unfold PaddleOCR.analyze_layout. rewrite analyze_loop_app.
  destruct (analyze_loop front [] []) as [[ds'|e] log]; [|discriminate].
  by rewrite (analyze_loop_escape _ _ _ _ _ Hobj eq_refl).
Qed.

(** X17.  For an entry with a usable box, the label decides: without a
    [block_label] the entry is kept as [unknown], with a text label it is
    kept under that label, and with a label present that is not text (an
    explicit null, a number) the model rejects it and the entry is
    skipped. *)
Theorem label_decides_for_a_usable_box (fields : list (string * value))
    (a b c d : Z) :
  dict_lookup "block_bbox" fields = Some (VList (map VInt [a; b; c; d])) ->
  0 <= a -> 0 <= b -> 0 <= c -> 0 <= d ->
  detection_of (VDict fields) =
  match dict_lookup "block_label" fields with
  | None => Ok (mkDetection (mkBBox a b c d) "unknown" None)
  | Some (VStr label) => Ok (mkDetection (mkBBox a b c d) label None)
  | Some _ => Raise ValidationError
  end.
Proof.
  intros Hbox Ha Hb Hc Hd.
  unfold PaddleOCR.detection_of, subscript, dict_get. rewrite Hbox. simpl.
  unfold new_BBox.
  destruct (Z.leb_spec 0 a), (Z.leb_spec 0 b), (Z.leb_spec 0 c), (Z.leb_spec 0 d);
    try lia. simpl.
  by destruct (dict_lookup "block_label" fields) as [[]|].
Qed.

Lemma detection_of_in_bounds (obj : value) (d : Detection) :
  detection_of obj = Ok d -> LayoutService.Detection_in_bounds d.
Proof.
  unfold PaddleOCR.detection_of. intros H.
  destruct obj as [| | | | | |fields]; try discriminate.
  apply bind_ok in H as (raw & _ & H).
  apply bind_ok in H as (items & _ & H).
  apply bind_ok in H as ([[[a b] c] e] & _ & H).
  apply bind_ok in H as (box & Hbox & H).
  apply new_BBox_ok in Hbox as (-> & ? & ? & ? & ?).
  unfold new_Detection in H.
  destruct (dict_get fields "block_label" (VStr "unknown")); try discriminate.
  injection H as <-. by repeat split.
Qed.

Lemma analyze_loop_in_bounds (layout_res : list value) (ds : list Detection)
    (log : list level) :
  analyze_loop layout_res [] [] = (Ok ds, log) ->
  Forall LayoutService.Detection_in_bounds ds /\ (length ds <= length layout_res)%nat.
Proof.
  intros H. split.
  - apply analyze_loop_ok in H as [-> _]. simpl.
    apply Forall_forall. intros d Hd.
    apply list_elem_of_omap in Hd as (obj & _ & Hobj).
    unfold PaddleOCR.kept in Hobj.
    destruct (detection_of obj) as [d'|] eqn:Hd'; [|discriminate].
    injection Hobj as ->. by eapply detection_of_in_bounds.
  - apply analyze_loop_count in H. simpl in H. lia.
Qed.

End LayoutLoop.

(** ** The layout service: guards, readiness, life cycle *)

Section LayoutServiceFacts.
Import Py PaddleOCR LayoutService.
Variable Img : Type.
Variable int_of_text : string -> option Z.

Local Abbreviation analyze_loop := (PaddleOCR.analyze_loop int_of_text).
Local Abbreviation analyze_layout := (PaddleOCR.analyze_layout int_of_text).
Local Abbreviation kept := (PaddleOCR.kept int_of_text).
Local Abbreviation analyze_document := (LayoutService.analyze_document Img int_of_text).
Local Abbreviation before_loop :=
  [Log PaddleOCR.INFO; ImageOpen; Log PaddleOCR.INFO; Predict].

Lemma analyze_layout_cases (layout_res : list value) :
  (exists ds log, analyze_loop layout_res [] [] = (Ok ds, log) /\
                  analyze_layout layout_res = (AnalyzeResponse ds, log ++ [INFO])) \/
  (exists e log, analyze_loop layout_res [] [] = (Raise e, log) /\
                 analyze_layout layout_res = (HTTPException 500, log ++ [ERROR])).
Proof.
  unfold PaddleOCR.analyze_layout.
  destruct (analyze_loop layout_res [] []) as [[ds|e] log]; [left | right]; eauto.
Qed.

(** The answer and events of a call in terms of what the guards and the
    three fallible steps gave. *)
Lemma analyze_document_cases (st : app_state Img)
    (open_image : Preprocessing.bytes -> option Img) (image : Preprocessing.UploadFile) :
  (Preprocessing.not_an_image image = true /\
   analyze_document st open_image image = (HTTPException 400, [Log WARNING])) \/
  (Preprocessing.not_an_image image = false /\ initialized Img st = None /\
   analyze_document st open_image image = (HTTPException 503, [Log ERROR])) \/
  (exists ppstruct,
     Preprocessing.not_an_image image = false /\ initialized Img st = Some ppstruct /\
     ((open_image (Preprocessing.data image) = None /\
       analyze_document st open_image image =
         (HTTPException 500, [Log INFO; ImageOpen; Log ERROR])) \/
      (exists img_array,
         open_image (Preprocessing.data image) = Some img_array /\
         ((match ppstruct img_array with
           | Some result => entries_of result = None
           | None => True
           end /\
           analyze_document st open_image image =
             (HTTPException 500, before_loop ++ [Log ERROR])) \/
          (exists result layout_res,
             ppstruct img_array = Some result /\
             entries_of result = Some layout_res /\
             analyze_document st open_image image =
               (fst (analyze_layout layout_res),
                before_loop ++ map Log (snd (analyze_layout layout_res)))))))).
Proof.
  unfold LayoutService.analyze_document.
  destruct (Preprocessing.not_an_image image); [left; by split|]. right.
  destruct (initialized Img st) as [ppstruct|]; [right | left; by repeat split].
  exists ppstruct. split; [done|]. split; [done|].
  destruct (open_image _) as [img_array|]; [right | left; by split].
  exists img_array. split; [done|].
  destruct (ppstruct img_array) as [result|] eqn:Hp; [|left; by split].
  destruct (entries_of result) as [layout_res|] eqn:He; [right | left; by split].
  exists result, layout_res. split; [done|]. split; [done|].
  by destruct (PaddleOCR.analyze_layout int_of_text layout_res).
Qed.

Lemma analyze_layout_answer (layout_res : list value) :
  (exists ds, fst (analyze_layout layout_res) = AnalyzeResponse ds) \/
  fst (analyze_layout layout_res) = HTTPException 500.
Proof.
  destruct (analyze_layout_cases layout_res) as [(ds & log & _ & ->)|(e & log & _ & ->)];
    [left; by exists ds | by right].
Qed.

Lemma no_inference_in_log (log : list level) :
(Predict ∉ map Log log) /\ (ImageOpen ∉ map Log log) /\
  filter (fun ev => is_inference ev = true) (map Log log) = [].
Proof.
  induction log as [|l rest (IH1 & IH2 & IH3)]; simpl.
  - repeat split; apply not_elem_of_nil.
  - repeat split.
    + rewrite not_elem_of_cons. by split.
    + rewrite not_elem_of_cons. by split.
    + rewrite filter_cons_False; [done | simpl; discriminate].
Qed.

Lemma analyze_loop_finished (layout_res : list value) (ds : list Detection)
    (log : list level) :
  analyze_loop layout_res [] [] = (Ok ds, log) ->
  ds = omap kept layout_res /\
  log = repeat WARNING (length layout_res - length ds).
Proof.
  intros H. pose proof (analyze_loop_count _ _ _ _ _ _ H) as Hcount. simpl in Hcount.
  apply analyze_loop_ok in H as [Hds Hlog]. simpl in Hds, Hlog. split; [done|].
  rewrite Hlog, repeat_length in Hcount. rewrite Hlog. f_equal. lia.
Qed.

Lemma answer_503_iff (st : app_state Img)
    (open_image : Preprocessing.bytes -> option Img) (image : Preprocessing.UploadFile) :
  fst (analyze_document st open_image image) = HTTPException 503 <->
  Preprocessing.not_an_image image = false /\ initialized Img st = None.
Proof.
  destruct (analyze_document_cases st open_image image)
    as [[Himg ->]|[(Himg & Hst & ->)|(p & Himg & Hst & [[_ ->]|(img & _ & [[_ ->]|
         (result & layout_res & _ & _ & ->)])])]]; simpl;
    rewrite ?Himg, ?Hst;
    try (split; solve [done | intros [? ?]; done | intros ?; done]).
  destruct (analyze_layout_answer layout_res) as [[ds ->]| ->];
    split; solve [done | intros [? ?]; done | intros ?; done].
Qed.

(** X7.  The two guards decide the 400 and the 503, in this order: the
    answer is 400 exactly for an upload that is not declared an image,
    whatever the state of the service, and 503 exactly for a declared image
    sent to a service without a model. *)
Theorem guards_decide_400_and_503 (st : app_state Img)
    (open_image : Preprocessing.bytes -> option Img) (image : Preprocessing.UploadFile) :
  (fst (analyze_document st open_image image) = HTTPException 400 <->
     Preprocessing.not_an_image image = true) /\
  (fst (analyze_document st open_image image) = HTTPException 503 <->
     Preprocessing.not_an_image image = false /\ initialized Img st = None).
Proof.
  split; [|apply answer_503_iff].
  destruct (analyze_document_cases st open_image image)
    as [[Himg ->]|[(Himg & Hst & ->)|(p & Himg & Hst & [[_ ->]|(img & _ & [[_ ->]|
         (result & layout_res & _ & _ & ->)])])]]; simpl;
    rewrite ?Himg; try (split; intros ?; done).
  destruct (analyze_layout_answer layout_res) as [[ds ->]| ->];
    split; intros ?; done.
Qed.

(** X8.  The model is run at most once per call, and exactly for a
    declared image sent to a service with a model, once the image has been
    opened. *)
Theorem inference_only_for_ready_image (st : app_state Img)
    (open_image : Preprocessing.bytes -> option Img) (image : Preprocessing.UploadFile) :
  (Predict ∈ snd (analyze_document st open_image image) <->
     Preprocessing.not_an_image image = false /\
     exists ppstruct img_array,
       initialized Img st = Some ppstruct /\
       open_image (Preprocessing.data image) = Some img_array) /\
  (length (filter (fun ev => is_inference ev = true)
             (snd (analyze_document st open_image image))) <= 1)%nat.
Proof.
  destruct (analyze_document_cases st open_image image)
    as [[Himg ->]|[(Himg & Hst & ->)|(p & Himg & Hst & [[Hop ->]|(img & Hop & [[_ ->]|
         (result & layout_res & _ & _ & ->)])])]]; simpl.
  - split; [|lia]. split.
    + intros H. apply list_elem_of_singleton in H. discriminate.
    + intros [H _]. congruence.
  - split; [|lia]. split.
    + intros H. apply list_elem_of_singleton in H. discriminate.
    + intros (_ & p & img & Hp & _). congruence.
  - split; [|lia]. split.
    + intros H. repeat (apply elem_of_cons in H as [H|H]; [discriminate|]).
      by apply elem_of_nil in H.
    + intros (_ & p' & img & _ & Himg'). congruence.
  - split; [|lia]. split; [|intros _; set_solver].
    intros _. split; [done|]. by exists p, img.
  - destruct (no_inference_in_log (snd (analyze_layout layout_res))) as (_ & _ & Hnone).
    rewrite Hnone. simpl. split; [|lia].
    split; [|intros _; set_solver].
    intros _. split; [done|]. by exists p, img.
Qed.

(** X9.  For a declared image the health check and the analysis agree on
    readiness: the first answers 503 exactly when the second does, and
    [healthy] exactly when the second does not. *)
Theorem health_agrees_with_analyze (st : app_state Img)
    (open_image : Preprocessing.bytes -> option Img) (image : Preprocessing.UploadFile) :
  Preprocessing.not_an_image image = false ->
  (fst (health_check Img st) =
     Unready 503 "Service not ready - PPStructure not initialized" <->
   fst (analyze_document st open_image image) = HTTPException 503) /\
  (fst (health_check Img st) = Healthy (mkHealthResponse "healthy" "PPStructure v3") <->
   fst (analyze_document st open_image image) <> HTTPException 503).
Proof.
  intros Himg.
  pose proof (answer_503_iff st open_image image) as H503.
  unfold LayoutService.health_check.
  destruct (initialized Img st) as [p|]; simpl; split; split; try done.
  - intros H. apply H503 in H as [_ H]. discriminate.
  - intros _ H. apply H503 in H as [_ H]. discriminate.
  - intros _. by apply H503.
  - intros H. exfalso. apply H. by apply H503.
Qed.

(** X10.  The service is ready from a successful start to the
    shutdown.  A start whose model is built leaves a state in which the
    health check answers [healthy]; a start whose constructor raises leaves
    no state.  After the shutdown, from whatever state, the health check
    answers 503 and no upload is opened or analysed: the answer is 400 or
    503. *)
Theorem ready_from_start_to_shutdown (st : app_state Img)
    (open_image : Preprocessing.bytes -> option Img) (image : Preprocessing.UploadFile) :
  (forall ppstruct,
     exists st', fst (lifespan_startup Img (Some ppstruct)) = Some st' /\
                 initialized Img st' = Some ppstruct /\
                 fst (health_check Img st') =
                   Healthy (mkHealthResponse "healthy" "PPStructure v3")) /\
  fst (lifespan_startup Img None) = None /\
  fst (health_check Img (fst (lifespan_shutdown Img st))) =
    Unready 503 "Service not ready - PPStructure not initialized" /\
  (fst (analyze_document (fst (lifespan_shutdown Img st)) open_image image)
     = HTTPException 400 \/
   fst (analyze_document (fst (lifespan_shutdown Img st)) open_image image)
     = HTTPException 503) /\
  (ImageOpen ∉ snd (analyze_document (fst (lifespan_shutdown Img st)) open_image image)) /\
  (Predict ∉ snd (analyze_document (fst (lifespan_shutdown Img st)) open_image image)).
Proof.
  split; [intros p; by eexists|]. split; [done|].
  assert (Hdown : initialized Img (fst (lifespan_shutdown Img st)) = None)
    by (by destruct st).
  split; [unfold LayoutService.health_check; by rewrite Hdown|].
  unfold LayoutService.analyze_document. rewrite Hdown.
  destruct (Preprocessing.not_an_image image); simpl;
    (split; [auto|]); split; intros H;
    apply list_elem_of_singleton in H; discriminate.
Qed.

(** X11.  A prediction without a [res] field, or whose [res] has no
    [parsing_res_list], is answered as a page without detections, not as an
    error; a [res] that is not an object is answered 500. *)
Theorem prediction_without_result_has_no_detections (st : app_state Img)
    (open_image : Preprocessing.bytes -> option Img) (image : Preprocessing.UploadFile)
    (ppstruct : PPStructureV3 Img) (img_array : Img) (fields : list (string * value)) :
  Preprocessing.not_an_image image = false ->
  initialized Img st = Some ppstruct ->
  open_image (Preprocessing.data image) = Some img_array ->
  ppstruct img_array = Some (VDict fields) ->
  (dict_lookup "res" fields = None ->
     analyze_document st open_image image =
       (AnalyzeResponse [], before_loop ++ [Log INFO])) /\
  (forall res, dict_lookup "res" fields = Some (VDict res) ->
     dict_lookup "parsing_res_list" res = None ->
     analyze_document st open_image image =
       (AnalyzeResponse [], before_loop ++ [Log INFO])) /\
  (forall v, dict_lookup "res" fields = Some v -> (forall res, v <> VDict res) ->
     analyze_document st open_image image =
       (HTTPException 500, before_loop ++ [Log ERROR])).
Proof.
  intros Himg Hst Hop Hp.
  unfold LayoutService.analyze_document. rewrite Himg, Hst, Hop, Hp.
  unfold entries_of, layout_res_of, dict_get.
  split; [|split].
  - by intros ->.
  - intros res -> Hlist. simpl. by rewrite Hlist.
  - intros v -> Hv. destruct v; try done. by destruct (Hv d).
Qed.

(** X12.  A body is only answered after the image was opened and the
    model run; its detections are, in order, the entries of the prediction
    from which one can be built, each within the declared bounds of the
    model ([Detection], [BBox]), and the events are the two steps, one
    warning per entry left out, and the closing record. *)
Theorem analyze_body_in_bounds (st : app_state Img)
    (open_image : Preprocessing.bytes -> option Img) (image : Preprocessing.UploadFile)
    (ds : list Detection) (trace : list event) :
  analyze_document st open_image image = (AnalyzeResponse ds, trace) ->
  Forall Detection_in_bounds ds /\
  exists ppstruct img_array result layout_res,
    initialized Img st = Some ppstruct /\
    open_image (Preprocessing.data image) = Some img_array /\
    ppstruct img_array = Some result /\
    entries_of result = Some layout_res /\
    ds = omap kept layout_res /\
    trace = before_loop
            ++ map Log (repeat WARNING (length layout_res - length ds))
            ++ [Log INFO].
Proof.
  intros H.
  destruct (analyze_document_cases st open_image image)
    as [[_ Heq]|[(_ & _ & Heq)|(p & _ & Hst & [[_ Heq]|(img & Hop & [[_ Heq]|
         (result & layout_res & Hp & He & Heq)])])]];
    rewrite Heq in H; try discriminate.
  destruct (analyze_layout_cases layout_res)
    as [(ds' & log & Hloop & Hlay)|(e & log & _ & Hlay)];
    rewrite Hlay in H; simpl in H; [|discriminate].
  injection H as <- <-.
  pose proof (analyze_loop_in_bounds _ _ _ _ Hloop) as [Hbounds _].
  apply analyze_loop_finished in Hloop as [Hds Hlog].
  split; [done|]. exists p, img, result, layout_res.
  repeat split; try done.
  by rewrite map_app, <- Hlog.
Qed.

End LayoutServiceFacts.

(** ** The preprocessing endpoint: calls, answers, bounds *)

Section EndpointFacts.
Import Preprocessing.
Variable environ : string -> option string.
Variable run_pipeline : pipeline.

Local Abbreviation process_document := (Preprocessing.process_document environ run_pipeline).
Local Abbreviation pipeline_outcome req :=
  (run_pipeline (data (image req)) (PPSTRUCTURE_URL environ) (PADDLEVL_URL environ)
     (or_default (max_segments req) 8) (or_default (min_height req) 50)).

(** The answer and the events of a call in terms of the guard and of what
    the pipeline call gave. *)
Lemma process_document_cases (clk : clock) (req : request) :
  (not_an_image (image req) = true /\
   process_document clk req =
     (HTTPException 400 "File must be an image (JPEG, PNG, etc.)", [Log WARNING])) \/
  (not_an_image (image req) = false /\
   exists call, is_call call = true /\
     ((exists results,
         pipeline_outcome req = Returned results /\
         process_document clk req =
           (Response (mkProcessResponse (concat (map snd results))
                        (Z.of_nat (length (concat (map snd results))))
                        (elapsed clk) "success"),
            [Log INFO; call; Log INFO])) \/
      (exists e,
         pipeline_outcome req = Raised e /\
         process_document clk req =
           (HTTPException 500 ("Failed to process document: " ++ exc_text e)%string,
            [Log INFO; call; Log ERROR])))).
Proof.
  unfold Preprocessing.process_document.
  destruct (not_an_image (image req)); [left; by split | right].
  split; [done|].
  exists (PipelineCall (data (image req)) (PPSTRUCTURE_URL environ) (PADDLEVL_URL environ)
            (or_default (max_segments req) 8) (or_default (min_height req) 50)).
  split; [reflexivity|].
  destruct (run_pipeline _ _ _ _ _) as [results|e]; [left | right].
  - exists results. split; [done|]. by rewrite extend_all_concat.
  - by exists e.
Qed.

(** X13.  A request calls the pipeline once if its upload is declared an
    image and not at all otherwise; a failed call is not tried again. *)
Theorem one_pipeline_call_per_accepted_request (clk : clock) (req : request) :
  pipeline_calls (snd (process_document clk req)) =
  if not_an_image (image req) then 0%nat else 1%nat.
Proof.
  unfold pipeline_calls.
  destruct (process_document_cases clk req)
    as [[-> ->]|(-> & call & Hcall & [(results & _ & ->)|(e & _ & ->)])]; simpl;
    rewrite ?filter_cons; simpl; rewrite ?Hcall; by rewrite ?decide_True.
Qed.

(** X14.  The answer follows the guard and the outcome of the pipeline
    call: 400 with the fixed detail exactly for an upload not declared an
    image; 500 exactly when the pipeline call raised, the detail being the
    text of the exception after a fixed prefix; a body exactly when the call
    returned.  An error is logged exactly with a 500. *)
Theorem answer_follows_pipeline_outcome (clk : clock) (req : request) :
  (forall d, fst (process_document clk req) = HTTPException 400 d <->
     not_an_image (image req) = true /\
     d = "File must be an image (JPEG, PNG, etc.)") /\
  (forall d, fst (process_document clk req) = HTTPException 500 d <->
     not_an_image (image req) = false /\
     exists e, pipeline_outcome req = Raised e /\
               d = ("Failed to process document: " ++ exc_text e)%string) /\
  ((exists body, fst (process_document clk req) = Response body) <->
     not_an_image (image req) = false /\
     exists results, pipeline_outcome req = Returned results) /\
  (Log ERROR ∈ snd (process_document clk req) <->
     exists d, fst (process_document clk req) = HTTPException 500 d).
Proof.
  destruct (process_document_cases clk req)
    as [[Himg ->]|(Himg & call & Hcall & [(results & Hrun & ->)|(e & Hrun & ->)])];
    simpl; rewrite Himg, ?Hrun;
    (split; [|split; [|split]]); try naive_solver.
  - split; [|naive_solver]. intros H.
    apply list_elem_of_singleton in H. discriminate.
  - split; [|naive_solver]. intros H. exfalso.
    destruct call; [discriminate|].
    repeat (apply elem_of_cons in H as [H|H]; [discriminate|]).
    by apply elem_of_nil in H.
  - split; [naive_solver|]. intros _. set_solver.
Qed.

(** X15.  The answer depends on the pipeline's result only through the
    segments it lists, in order: the band images are dropped, and how the
    segments are grouped into bands does not show. *)
Theorem answer_depends_on_flattened_segments (run_pipeline' : pipeline)
    (clk clk' : clock) (req : request)
    (results results' : list (bytes * list DocumentSegment)) :
  not_an_image (image req) = false ->
  pipeline_outcome req = Returned results ->
  run_pipeline' (data (image req)) (PPSTRUCTURE_URL environ) (PADDLEVL_URL environ)
    (or_default (max_segments req) 8) (or_default (min_height req) 50)
    = Returned results' ->
  concat (map snd results) = concat (map snd results') ->
  same_but_elapsed (fst (process_document clk req))
    (fst (Preprocessing.process_document environ run_pipeline' clk' req)).
Proof.
  intros Himg Hrun Hrun' Hflat. unfold Preprocessing.process_document.
  rewrite Himg, Hrun, Hrun'. simpl. rewrite !extend_all_concat. simpl.
  by rewrite Hflat.
Qed.

(** X16.  Every body is within the declared bounds of [ProcessResponse],
    and its [total_segments] is the sum of the numbers of segments of the
    bands, which is the number of bands only if each band has one. *)
Theorem body_in_bounds_and_total_is_sum (clk : clock) (req : request)
    (body : ProcessResponse) :
  fst (process_document clk req) = Response body ->
  ProcessResponse_in_bounds body /\
  exists results,
    pipeline_outcome req = Returned results /\
    total_segments body = Z.of_nat (sum_list_with (fun p => length (snd p)) results).
Proof.
  intros H. apply response_inv in H as (_ & results & Hrun & ->).
  split; [apply response_fields_in_bounds|].
  exists results. split; [done|]. simpl. f_equal.
  clear Hrun. induction results as [|[img segs] rest IH]; simpl; [done|].
  rewrite length_app. by rewrite IH.
Qed.

End EndpointFacts.

(** ** The further properties at the sample inputs *)

Lemma loop_accounts_witness :
  (length [detection_text; detection_unknown] + length [PaddleOCR.WARNING]
   = length [entry_text; entry_without_bbox; entry_without_label])%nat /\
  [PaddleOCR.WARNING] = repeat PaddleOCR.WARNING (3 - 2).
Proof.
  exact (loop_accounts_for_every_entry Py.decimal
           [entry_text; entry_without_bbox; entry_without_label]
           [detection_text; detection_unknown] [PaddleOCR.WARNING] eq_refl).
Defined.

Lemma loop_fails_witness :
  Py.OverflowError = Py.OverflowError /\
  (exists obj fields raw items,
     obj ∈ [entry_text; entry_infinite; entry_without_label] /\
     obj = Py.VDict fields /\
     Py.dict_lookup "block_bbox" fields = Some raw /\ Py.iterate raw = Py.Ok items /\
     LayoutService.infinite_among 5 items) /\
  fst (PaddleOCR.analyze_layout Py.decimal
         [entry_text; entry_infinite; entry_without_label])
    = PaddleOCR.HTTPException 500.
Proof.
  exact (loop_fails_only_on_infinite_float Py.decimal
           [entry_text; entry_infinite; entry_without_label] Py.OverflowError []
           eq_refl).
Defined.

Lemma float_box_witness :
  PaddleOCR.detection_of Py.decimal
    (LayoutService.float_entry (-1 # 2) (7 # 2) 10 20 "text") =
    Py.Ok (PaddleOCR.mkDetection (PaddleOCR.mkBBox 0 3 10 20) "text" None) /\
  PaddleOCR.detection_of Py.decimal
    (LayoutService.float_entry (-1) (7 # 2) 10 20 "text") = Py.Raise Py.ValidationError.
Proof.
  split.
  - apply (float_box_kept_iff_above_minus_one Py.decimal (-1 # 2) (7 # 2) 10 20 "text").
    repeat split.
  - apply (float_box_kept_iff_above_minus_one Py.decimal (-1) (7 # 2) 10 20 "text").
    intros [H _]. discriminate H.
Defined.

Lemma infinite_coordinate_witness :
  PaddleOCR.detection_of Py.decimal entry_infinite = Py.Raise Py.OverflowError /\
  fst (PaddleOCR.analyze_layout Py.decimal
         ([entry_text] ++ entry_infinite :: [entry_without_label]))
    = PaddleOCR.HTTPException 500.
Proof.
  apply (infinite_coordinate_fails_the_request Py.decimal [entry_text]
           [entry_without_label] _ [10; 20] false [Py.VInt 60] [detection_text]).
  - simpl. lia.
  - reflexivity.
  - reflexivity.
Defined.

Lemma health_agrees_witness :
  (fst (LayoutService.health_check Preprocessing.bytes started) =
     LayoutService.Unready 503 "Service not ready - PPStructure not initialized" <->
   fst (LayoutService.analyze_document Preprocessing.bytes Py.decimal started
          stub_open png_upload) = PaddleOCR.HTTPException 503) /\
  (fst (LayoutService.health_check Preprocessing.bytes started) =
     LayoutService.Healthy (LayoutService.mkHealthResponse "healthy" "PPStructure v3") <->
   fst (LayoutService.analyze_document Preprocessing.bytes Py.decimal started
          stub_open png_upload) <> PaddleOCR.HTTPException 503).
Proof.
  exact (health_agrees_with_analyze Preprocessing.bytes Py.decimal started stub_open
           png_upload eq_refl).
Defined.

Lemma prediction_without_result_witness :
  LayoutService.analyze_document Preprocessing.bytes Py.decimal started_empty
    stub_open png_upload =
  (PaddleOCR.AnalyzeResponse [],
   [LayoutService.Log PaddleOCR.INFO; LayoutService.ImageOpen;
    LayoutService.Log PaddleOCR.INFO; LayoutService.Predict;
    LayoutService.Log PaddleOCR.INFO]).
Proof.
  apply (prediction_without_result_has_no_detections Preprocessing.bytes Py.decimal
           started_empty stub_open png_upload stub_ppstruct_empty
           (Preprocessing.data png_upload) [("input_path", Py.VNone)]
           eq_refl eq_refl eq_refl eq_refl).
  reflexivity.
Defined.

Lemma analyze_body_witness :
  Forall LayoutService.Detection_in_bounds [detection_text; detection_unknown] /\
  exists ppstruct img_array result layout_res,
    LayoutService.initialized Preprocessing.bytes started = Some ppstruct /\
    stub_open (Preprocessing.data png_upload) = Some img_array /\
    ppstruct img_array = Some result /\
    LayoutService.entries_of result = Some layout_res /\
    [detection_text; detection_unknown] = omap (PaddleOCR.kept Py.decimal) layout_res /\
    [LayoutService.Log PaddleOCR.INFO; LayoutService.ImageOpen;
     LayoutService.Log PaddleOCR.INFO; LayoutService.Predict;
     LayoutService.Log PaddleOCR.WARNING; LayoutService.Log PaddleOCR.INFO] =
    [LayoutService.Log PaddleOCR.INFO; LayoutService.ImageOpen;
     LayoutService.Log PaddleOCR.INFO; LayoutService.Predict]
    ++ map LayoutService.Log (repeat PaddleOCR.WARNING (length layout_res - 2))
    ++ [LayoutService.Log PaddleOCR.INFO].
Proof.
  exact (analyze_body_in_bounds Preprocessing.bytes Py.decimal started stub_open
           png_upload _ _ eq_refl).
Defined.

Lemma flattened_segments_witness :
  Preprocessing.same_but_elapsed
    (fst (Preprocessing.process_document no_environ stub_three_bands clock_a png_request))
    (fst (Preprocessing.process_document no_environ stub_one_band clock_b png_request)).
Proof.
  apply (answer_depends_on_flattened_segments no_environ stub_three_bands stub_one_band
           clock_a clock_b png_request three_bands
           [([Byte.xff], concat (map snd three_bands))]); reflexivity.
Defined.

Lemma body_in_bounds_witness :
  ProcessResponse_in_bounds
    (Preprocessing.mkProcessResponse (concat (map snd three_bands)) 3
       (Preprocessing.elapsed clock_a) "success") /\
  exists results,
    stub_three_bands (Preprocessing.data (Preprocessing.image png_request))
      (Preprocessing.PPSTRUCTURE_URL no_environ) (Preprocessing.PADDLEVL_URL no_environ)
      8 50 = Preprocessing.Returned results /\
    3 = Z.of_nat (sum_list_with (fun p => length (snd p)) results).
Proof.
  exact (body_in_bounds_and_total_is_sum no_environ stub_three_bands clock_a
           png_request _ eq_refl).
Defined.

Lemma label_decides_witness :
  PaddleOCR.detection_of Py.decimal entry_null_label = Py.Raise Py.ValidationError /\
  PaddleOCR.detection_of Py.decimal entry_without_label = Py.Ok detection_unknown.
Proof.
  split.
  - apply (label_decides_for_a_usable_box Py.decimal
             [("block_bbox", Py.VList (map Py.VInt [10; 80; 300; 200]));
              ("block_label", Py.VNone)] 10 80 300 200); [reflexivity | lia..].
  - apply (label_decides_for_a_usable_box Py.decimal
             [("block_bbox", Py.VList (map Py.VInt [10; 80; 300; 200]))]
             10 80 300 200); [reflexivity | lia..].
Defined.
